(** * node-switchbot: the humidifier codec, its command exchange, and the
      parameter checker

    A shallow embedding of [src/device/wohumi.ts] (class [WoHumi]) and of
    [parameter-checker.ts] (class [ParameterChecker]), with the properties
    the specification states about them.

    Layout: the JavaScript runtime notions the two classes rely on
    ([Js], [Buffer]), then the two classes ([WoHumi], [ParameterChecker]),
    then the theorems. *)

From Stdlib Require Import ZArith NArith List String Ascii Bool Lia.
From Stdlib.Strings Require Import Byte.
From Stdlib Require DecimalString.
From Stdlib Require Import SpecFloat.
Import ListNotations.

Set Warnings "-register-all".

(* ================================================================== *)
(** * The JavaScript runtime, as far as the sources use it              *)
(* ================================================================== *)

Module Js.

(** Values that can be thrown or used to reject a promise. *)
Inductive Exn : Type :=
| JsError (message : string)
    (** [new Error(message)] *)
| RangeError (offset : nat) (len : nat)
    (** thrown by a [Buffer] read whose offset lies outside the buffer *)
| TypeError (what : string)
    (** e.g. a property assignment on [null] or [undefined] *)
| Foreign (tag : string).
    (** anything a collaborator outside these sources rejects with *)

(** What the instrumented code can be observed to do. *)
Inductive Event : Type :=
| EvLog (message : string)     (** the [onlog] callback was called *)
| EvRead (offset : nat)        (** a byte offset of a buffer was read *)
| EvResolve                    (** the executor's [resolve] was called *)
| EvReject (e : Exn).          (** the executor's [reject] was called *)

Definition Trace := list Event.

(** Completion of a piece of code: normal, or abrupt by [throw]. *)
Inductive Res (A : Type) : Type :=
| Ret (a : A)
| Throw (e : Exn).
Arguments Ret {A} a.
Arguments Throw {A} e.

(** Code that runs over a state [S] and may throw. *)
Definition Eff (S A : Type) : Type := S -> Res A * S.

Definition ret {S A} (a : A) : Eff S A := fun s => (Ret a, s).

Definition throw {S A} (e : Exn) : Eff S A := fun s => (Throw e, s).

Definition bind {S A B} (m : Eff S A) (k : A -> Eff S B) : Eff S B :=
  fun s =>
    match m s with
    | (Ret a, s') => k a s'
    | (Throw e, s') => (Throw e, s')
    end.

Definition get {S} : Eff S S := fun s => (Ret s, s).
Definition put {S} (s : S) : Eff S unit := fun _ => (Ret tt, s).
Definition emit (ev : Event) : Eff Trace unit :=
  fun tr => (Ret tt, tr ++ [ev]).

(** A promise that has settled. *)
Inductive Settled (A : Type) : Type :=
| Fulfilled (a : A)
| Rejected (e : Exn).
Arguments Fulfilled {A} a.
Arguments Rejected {A} e.

(** [p.then(onFulfilled)]: the handler runs only when [p] is fulfilled;
    what it throws rejects the derived promise. *)
Definition promise_then {S A B} (p : Settled A) (onFulfilled : A -> Eff S B)
  : Eff S (Settled B) :=
  match p with
  | Fulfilled a =>
      fun s =>
        match onFulfilled a s with
        | (Ret b, s') => (Ret (Fulfilled b), s')
        | (Throw e, s') => (Ret (Rejected e), s')
        end
  | Rejected e => ret (Rejected e)
  end.

(** [p.catch(onRejected)]: the handler runs only when [p] is rejected. *)
Definition promise_catch {S A} (p : Settled A) (onRejected : Exn -> Eff S A)
  : Eff S (Settled A) :=
  match p with
  | Fulfilled a => ret (Fulfilled a)
  | Rejected e =>
      fun s =>
        match onRejected e s with
        | (Ret a, s') => (Ret (Fulfilled a), s')
        | (Throw e', s') => (Ret (Rejected e'), s')
        end
  end.

(** The calls to [resolve] and [reject] in a trace, in order. *)
Definition is_settle_call (ev : Event) : bool :=
  match ev with
  | EvResolve | EvReject _ => true
  | _ => false
  end.

Definition settle_calls (tr : Trace) : list Event := filter is_settle_call tr.

(** [new Promise(executor)]: the first call of [resolve] or [reject]
    settles the promise and the later ones are ignored; an executor that
    throws before any call rejects it; with no call it stays pending
    ([None]). *)
Definition new_Promise (executor : Eff Trace unit) : option (Settled unit) :=
  let '(r, tr) := executor [] in
  match settle_calls tr with
  | EvReject e :: _ => Some (Rejected e)
  | _ :: _ => Some (Fulfilled tt)
  | [] =>
      match r with
      | Throw e => Some (Rejected e)
      | Ret _ => None
      end
  end.

(** ToBoolean on an integer-valued number. *)
Definition truthy_int (z : Z) : bool := negb (z =? 0)%Z.

(** ** Numbers

    A JavaScript number is an IEEE 754 binary64 value: [spec_float] with
    [prec = 53] and [emax = 1024]. *)
Definition Number := spec_float.
Definition prec : Z := 53.
Definition emax : Z := 1024.

(** The number an integer denotes (rounded to nearest even beyond 2^53). *)
Definition num_of_Z (z : Z) : Number := binary_normalize prec emax z 0 false.

Definition NaN : Number := S754_nan.
Definition num_zero : Number := S754_zero false.            (* 0 *)
Definition num_one : Number := S754_finite false 4503599627370496 (-52). (* 1 *)

(** [x < y], [x > y] and [x === y] on numbers: all [false] on [NaN]. *)
Definition num_lt (x y : Number) : bool := SFltb x y.
Definition num_gt (x y : Number) : bool := SFltb y x.
Definition num_strict_eq (x y : Number) : bool := SFeqb x y.

(** [n % d] (ECMAScript Number::remainder): the result has the sign of
    the dividend and is exact, r = n - d * trunc(n / d). *)
Definition num_rem (n d : Number) : Number :=
  match n, d with
  | S754_nan, _ | _, S754_nan => S754_nan
  | S754_infinity _, _ => S754_nan
  | _, S754_infinity _ => n
  | _, S754_zero _ => S754_nan
  | S754_zero _, _ => n
  | S754_finite sn mn en, S754_finite _ md ed =>
      let e := Z.min en ed in
      let Mn := (Z.pos mn * 2 ^ (en - e))%Z in
      let Md := (Z.pos md * 2 ^ (ed - e))%Z in
      let r := (Mn mod Md)%Z in
      binary_normalize prec emax (if sn then (- r)%Z else r) e sn
  end.

(** ** Strings

    A JavaScript string is a sequence of UTF-16 code units. *)
Definition JsString := list N.

Definition str (s : string) : JsString :=
  map N_of_ascii (list_ascii_of_string s).

Fixpoint str_eqb (a b : JsString) : bool :=
  match a, b with
  | [], [] => true
  | x :: a', y :: b' => N.eqb x y && str_eqb a' b'
  | _, _ => false
  end.

Definition is_high_surrogate (c : N) : bool :=
  (0xD800 <=? c)%N && (c <=? 0xDBFF)%N.
Definition is_low_surrogate (c : N) : bool :=
  (0xDC00 <=? c)%N && (c <=? 0xDFFF)%N.

(** [Buffer.from(s, 'utf8').length]: one byte below U+0080, two below
    U+0800, four for a surrogate pair, three otherwise (a lone surrogate
    is encoded as U+FFFD). *)
Fixpoint utf8_length (s : JsString) : nat :=
  match s with
  | [] => 0
  | c :: rest =>
      if (c <? 0x80)%N then 1 + utf8_length rest
      else if (c <? 0x800)%N then 2 + utf8_length rest
      else if is_high_surrogate c then
        match rest with
        | c2 :: rest' =>
            if is_low_surrogate c2 then 4 + utf8_length rest'
            else 3 + utf8_length rest
        | [] => 3
        end
      else 3 + utf8_length rest
  end.

(** ** Values

    The values the checker is applied to: primitives, arrays and plain
    objects (own properties, in order; the prototype is
    [Object.prototype]).  Functions, symbols, bigints and objects of other
    classes are left out of the data. *)
Inductive Value : Type :=
| VUndefined
| VNull
| VBool (b : bool)
| VNumber (x : Number)
| VString (s : JsString)
| VArray (elems : list Value)
| VObject (props : list (JsString * Value)).

Inductive TypeTag : Type :=
| T_undefined | T_object | T_boolean | T_number | T_string.

(** [typeof v] *)
Definition typeof (v : Value) : TypeTag :=
  match v with
  | VUndefined => T_undefined
  | VNull => T_object
  | VBool _ => T_boolean
  | VNumber _ => T_number
  | VString _ => T_string
  | VArray _ => T_object
  | VObject _ => T_object
  end.

(** ToBoolean: [!v] is [negb (truthy v)]. *)
Definition truthy (v : Value) : bool :=
  match v with
  | VUndefined | VNull => false
  | VBool b => b
  | VNumber (S754_zero _) | VNumber S754_nan => false
  | VNumber _ => true
  | VString [] => false
  | VString _ => true
  | VArray _ | VObject _ => true
  end.

(** [Array.isArray(v)] *)
Definition Array_isArray (v : Value) : bool :=
  match v with
  | VArray _ => true
  | _ => false
  end.

(** [x === v] for a number [x], and [s === v] for a string [s]: equal
    only to a value of the same type. *)
Definition strict_equals_number (x : Number) (v : Value) : bool :=
  match v with
  | VNumber y => num_strict_eq x y
  | _ => false
  end.

Definition strict_equals_string (s : JsString) (v : Value) : bool :=
  match v with
  | VString t => str_eqb s t
  | _ => false
  end.

(** [arr.indexOf(x)], with [same] the test [x === _]: the first index
    whose element is strictly equal to [x], or -1. *)
Fixpoint indexOf_from (same : Value -> bool) (arr : list Value) (i : Z) : Z :=
  match arr with
  | [] => (-1)%Z
  | v :: rest => if same v then i else indexOf_from same rest (i + 1)%Z
  end.

Definition indexOf (same : Value -> bool) (arr : list Value) : Z :=
  indexOf_from same arr 0%Z.

(** The own property [name] among [props], if there is one. *)
Fixpoint lookup {A} (name : JsString) (props : list (JsString * A)) : option A :=
  match props with
  | [] => None
  | (k, v) :: rest => if str_eqb k name then Some v else lookup name rest
  end.

(** What a property read can yield: a value of the data given to the
    checker, or, through the prototype chain of a plain object, a member
    of [Object.prototype]: one of its functions, or, under [__proto__],
    [Object.prototype] itself.  The members are results of reads only:
    the data itself holds no function. *)
Inductive Any : Type :=
| Data (v : Value)
| Builtin (name : JsString)
| ObjectPrototype.

Coercion Data : Value >-> Any.

(** The function-valued properties of [Object.prototype]. *)
Definition object_prototype_methods : list string :=
  ["constructor"; "hasOwnProperty"; "isPrototypeOf"; "propertyIsEnumerable";
   "toLocaleString"; "toString"; "valueOf"; "__defineGetter__";
   "__defineSetter__"; "__lookupGetter__"; "__lookupSetter__"]%string.

(** [obj[name]] when [obj] has no own property [name]: what
    [Object.prototype] gives. *)
Definition inherited (name : JsString) : Any :=
  if str_eqb name (str "__proto__") then ObjectPrototype
  else if existsb (fun m => str_eqb name (str m)) object_prototype_methods
       then Builtin name
       else Data VUndefined.

(** [obj[name]] on a plain object: the own property, or else the
    inherited one, or else [undefined]. *)
Definition get_prop (obj : Value) (name : JsString) : Any :=
  match obj with
  | VObject props =>
      match lookup name props with
      | Some v => Data v
      | None => inherited name
      end
  | _ => Data VUndefined
  end.

(** Whether ['...' + v] completes.  A primitive always converts.  A plain
    object converts through the inherited [toString] unless an own
    property [toString] shadows it: the own properties are data, hence not
    callable, and the conversion then ends in a [TypeError].  An array
    converts through [join], which converts each element but [null] and
    [undefined]. *)
Fixpoint converts (v : Value) : bool :=
  match v with
  | VArray elems => forallb converts elems
  | VObject props =>
      match lookup (str "toString") props with
      | Some _ => false
      | None => true
      end
  | _ => true
  end.

End Js.

Declare Scope eff_scope.
Delimit Scope eff_scope with eff.
Notation "x <- m ;; k" := (Js.bind m (fun x => k))
  (at level 61, m at next level, right associativity) : eff_scope.
Notation "m ;;; k" := (Js.bind m (fun _ => k))
  (at level 61, right associativity) : eff_scope.

(* ================================================================== *)
(** * Node's Buffer                                                     *)
(* ================================================================== *)

Module Buffer.
Import Js.
Local Open Scope eff_scope.

(** An ordered sequence of bytes. *)
Definition t := list byte.

Definition byte_of_Z (z : Z) : byte :=
  match Byte.of_N (Z.to_N (z mod 256)) with
  | Some b => b
  | None => x00
  end.

(** The unsigned value of a byte, 0 to 255. *)
Definition uint8 (b : byte) : Z := Z.of_N (Byte.to_N b).

(** [Buffer.from(bytes)] on an array of integers: each entry is taken
    modulo 256. *)
Definition from (bytes : list Z) : t := map byte_of_Z bytes.

(** [buf.readUInt8(offset)]: the byte at [offset], or a [RangeError] when
    the offset is outside the buffer.  The access is recorded. *)
Definition readUInt8 (buf : t) (offset : nat) : Eff Trace Z :=
  emit (EvRead offset) ;;;
  match nth_error buf offset with
  | Some b => ret (uint8 b)
  | None => throw (RangeError offset (List.length buf))
  end.

Definition hex_digit (n : N) : ascii :=
  match String.get (N.to_nat n) "0123456789abcdef" with
  | Some c => c
  | None => "0"%char
  end.

Definition hex_of_byte (b : byte) : string :=
  let n := Byte.to_N b in
  String (hex_digit (n / 16)) (String (hex_digit (n mod 16)) EmptyString).

(** [buf.toString('hex')]: two lowercase hexadecimal digits per byte. *)
Fixpoint toString_hex (buf : t) : string :=
  match buf with
  | [] => EmptyString
  | b :: rest => hex_of_byte b ++ toString_hex rest
  end.

End Buffer.

(* ================================================================== *)
(** * src/device/wohumi.ts                                              *)
(* ================================================================== *)

Module WoHumi.
Import Js.
Local Open Scope eff_scope.
Local Open Scope string_scope.

(** The [onlog] argument: [undefined], or a function of the message.  A
    call of the function is recorded as [EvLog]; the function belongs to
    the caller and is taken to return normally. *)
Inductive OnLog : Type := OnLogUndefined | OnLogFunction.

(** The record [parseServiceData] builds. *)
Record ServiceData : Type := {
  model : string;
  modelName : string;
  onState : bool;
  autoMode : bool;
  percentage : Z
}.

(** [`${n}`] for a length. *)
Definition decimal (n : nat) : string :=
  DecimalString.NilZero.string_of_uint (Nat.to_uint n).

(** The template literal passed to [onlog], for a buffer of length [n]. *)
Definition length_complaint (n : nat) : string :=
  "[parseServiceDataForWoHumi] Buffer length " ++ decimal n ++ " !== 8!".

(** [static parseServiceData(buf, onlog)]; [None] is [null]. *)
Definition parseServiceData (buf : Buffer.t) (onlog : OnLog)
  : Eff Trace (option ServiceData) :=
  if negb (Nat.eqb (List.length buf) 8) then
    match onlog with
    | OnLogFunction =>
        emit (EvLog (length_complaint (List.length buf)))
    | OnLogUndefined => ret tt
    end ;;;
    ret None
  else
    byte1 <- Buffer.readUInt8 buf 1 ;;
    byte4 <- Buffer.readUInt8 buf 4 ;;
    let onState := if truthy_int (Z.land byte1 0x80) then true else false in
    let autoMode := if truthy_int (Z.land byte4 0x80) then true else false in
    let percentage := Z.land byte4 0x7f in
    let data := {|
      model := "e";
      modelName := "WoHumi";
      onState := onState;
      autoMode := autoMode;
      percentage := if autoMode then 0%Z else percentage
    |} in
    ret (Some data).

(** Modelled from the spec: [this._command] is declared in device.ts,
    which is not among the sources.  By sections 4.3 and 5 of the
    specification it writes the request buffer, awaits the single next
    notification under a timeout, and so returns a promise that settles:
    fulfilled with the response buffer, or rejected with a transport
    failure or a timeout.  It is a parameter of the model, given by the
    way its promise settles. *)
Definition Command := Buffer.t -> Settled Buffer.t.

Definition resolve : Eff Trace unit := emit EvResolve.
Definition reject (e : Exn) : Eff Trace unit := emit (EvReject e).

(** [new Error('The device returned an error: 0x' + res_buf.toString('hex'))] *)
Definition device_error (res_buf : Buffer.t) : Exn :=
  JsError ("The device returned an error: 0x" ++ Buffer.toString_hex res_buf).

(** The executor [_operateBot] passes to [new Promise]. *)
Definition _operateBot_executor (_command : Command) (bytes : list Z)
  : Eff Trace unit :=
  let req_buf := Buffer.from bytes in
  p <- promise_then (_command req_buf)
         (fun res_buf =>
            code <- Buffer.readUInt8 res_buf 0 ;;
            if Nat.eqb (List.length res_buf) 3
               && ((code =? 0x01)%Z || (code =? 0x05)%Z)
            then resolve
            else reject (device_error res_buf)) ;;
  _ <- promise_catch p (fun error => reject error) ;;
  ret tt.

(** [_operateBot(bytes)]: the way the returned promise settles. *)
Definition _operateBot (_command : Command) (bytes : list Z)
  : option (Settled unit) :=
  new_Promise (_operateBot_executor _command bytes).

(** The trace of one [_operateBot] call. *)
Definition _operateBot_trace (_command : Command) (bytes : list Z) : Trace :=
  snd (_operateBot_executor _command bytes []).

Definition press (_command : Command) := _operateBot _command [0x57; 0x01; 0x00]%Z.
Definition turnOn (_command : Command) := _operateBot _command [0x57; 0x01; 0x01]%Z.
Definition turnOff (_command : Command) := _operateBot _command [0x57; 0x01; 0x02]%Z.
Definition down (_command : Command) := _operateBot _command [0x57; 0x01; 0x03]%Z.
Definition up (_command : Command) := _operateBot _command [0x57; 0x01; 0x04]%Z.

End WoHumi.

(* ================================================================== *)
(** * parameter-checker.ts                                              *)
(* ================================================================== *)

Module ParameterChecker.
Import Js.
Local Open Scope eff_scope.
Local Open Scope string_scope.

(** A [RegExp], by what [test] answers.  (A pattern with the [g] or [y]
    flag also keeps a [lastIndex]; such patterns are left out.) *)
Record RegExp : Type := { test : JsString -> bool }.

(** [type Rule].  The keys hold any value, as the code inspects them with
    [typeof], [Array.isArray] and [===]; an absent key is [VUndefined].
    [pattern] is [Some r] exactly when [rule.pattern instanceof RegExp]. *)
Record Rule : Type := {
  required : Value;
  min : Value;
  max : Value;
  minBytes : Value;
  maxBytes : Value;
  pattern : option RegExp;
  enum : Value;
  type : Value
}.

(** The rule [{}]. *)
Definition empty_rule : Rule := {|
  required := VUndefined; min := VUndefined; max := VUndefined;
  minBytes := VUndefined; maxBytes := VUndefined; pattern := None;
  enum := VUndefined; type := VUndefined
|}.

(** The [rules] argument: its own properties in [Object.keys] order. *)
Definition Rules := list (JsString * Rule).

(** An error message, as the operands of the [+] chain that builds it;
    the conversion of a number or an array to text is not carried out. *)
Inductive Piece : Type :=
| Lit (s : string)        (** a string literal *)
| Name (n : JsString)     (** a parameter name *)
| Val (v : Value)         (** a value, converted by [+] *)
| Json (v : Value)        (** [JSON.stringify(v)] *)
| Len (n : nat).          (** a byte length *)

Definition Message := list Piece.

(** The object stored in [error]: [{code, message}], and [name] once
    [check] has attached it. *)
Record ErrorObject : Type := {
  code : string;
  message : Message;
  name : option JsString
}.

(** The static property [ParameterChecker.error], the only state of the
    class: declared without initial value, reset to [null] by some
    checkers, overwritten on every failure.  In the static methods
    [this] is the class, so [this.error] is this property. *)
Inductive ErrorSlot : Type :=
| ErrUndefined
| ErrNull
| ErrObject (e : ErrorObject).

Definition State := ErrorSlot.

(** [this.error = {code, message}] *)
Definition set_error (c : string) (m : Message) : Eff State unit :=
  put (ErrObject {| code := c; message := m; name := None |}).

(** [this.error.name = n]: a [TypeError] when [error] holds no object. *)
Definition set_error_name (n : JsString) : Eff State unit :=
  fun st =>
    match st with
    | ErrObject e =>
        (Ret tt,
         ErrObject {| code := code e; message := message e; name := Some n |})
    | _ => (Throw (TypeError "Cannot set properties of null or undefined"), st)
    end.

Definition isSpecified (value : Any) : bool :=
  match value with
  | Data VUndefined => false
  | _ => true
  end.

(** [typeof bound === 'number' && value < bound] and the like. *)
Definition below (x : Number) (bound : Value) : bool :=
  match bound with
  | VNumber b => num_lt x b
  | _ => false
  end.

Definition above (x : Number) (bound : Value) : bool :=
  match bound with
  | VNumber b => num_gt x b
  | _ => false
  end.

(** [Array.isArray(e) && e.length > 0 && e.indexOf(value) === -1] *)
Definition enum_misses (same : Value -> bool) (e : Value) : bool :=
  match e with
  | VArray l => (0 <? List.length l)%nat && (indexOf same l =? -1)%Z
  | _ => false
  end.

Definition isFloat (value : Any) (rule : Rule) (name : JsString)
  : Eff State bool :=
  _ <- get ;;
  if negb (truthy (required rule)) && negb (isSpecified value) then ret true
  else
    match value with
    | Data (VNumber x) =>
        if below x (min rule) then
          set_error "VALUE_UNDERFLOW"
            [Lit "The `"; Name name;
             Lit "` must be grater than or equal to "; Val (min rule);
             Lit "."] ;;;
          ret false
        else if above x (max rule) then
          set_error "VALUE_OVERFLOW"
            [Lit "The `"; Name name;
             Lit "` must be less than or equal to "; Val (max rule);
             Lit "."] ;;;
          ret false
        else if enum_misses (strict_equals_number x) (enum rule) then
          set_error "ENUM_UNMATCH"
            [Lit "The `"; Name name; Lit "` must be any one of ";
             Json (enum rule); Lit "."] ;;;
          ret false
        else ret true
    | _ =>
        set_error "TYPE_INVALID"
          [Lit "The `"; Name name;
           Lit "` must be a number (integer or float)."] ;;;
        ret false
    end.

Definition isInteger (value : Any) (rule : Rule) (name : JsString)
  : Eff State bool :=
  put ErrNull ;;;
  if negb (truthy (required rule)) && negb (isSpecified value) then ret true
  else
    ok <- isFloat value rule (str "value") ;;
    if ok then
      match value with
      | Data (VNumber x) =>
          if num_strict_eq (num_rem x num_one) num_zero then ret true
          else
            set_error "TYPE_INVALID"
              [Lit "The `"; Name name; Lit "` must be an integer."] ;;;
            ret false
      | _ =>
          (* not reached: past the guard above, [isFloat] accepts
             numbers only (lemma [isFloat_true_number]) *)
          set_error "TYPE_INVALID"
            [Lit "The `"; Name name; Lit "` must be an integer."] ;;;
          ret false
      end
    else ret false.

Definition isBoolean (value : Any) (rule : Rule) (name : JsString)
  : Eff State bool :=
  put ErrNull ;;;
  if negb (truthy (required rule)) && negb (isSpecified value) then ret true
  else
    match value with
    | Data (VBool _) => ret true
    | _ =>
        set_error "TYPE_INVALID"
          [Lit "The `"; Name name; Lit "` must be boolean."] ;;;
        ret false
    end.

Definition isObject (value : Any) (rule : Rule) (name : JsString)
  : Eff State bool :=
  put ErrNull ;;;
  if negb (truthy (required rule)) && negb (isSpecified value) then ret true
  else
    match value with
    | Data (VObject _) | ObjectPrototype => ret true
    | _ =>
        set_error "TYPE_INVALID"
          [Lit "The `"; Name name; Lit "` must be an object."] ;;;
        ret false
    end.

Definition isArray (value : Any) (rule : Rule) (name : JsString)
  : Eff State bool :=
  put ErrNull ;;;
  if negb (truthy (required rule)) && negb (isSpecified value) then ret true
  else
    match value with
    | Data (VArray l) =>
        let len := num_of_Z (Z.of_nat (List.length l)) in
        if below len (min rule) then
          set_error "LENGTH_UNDERFLOW"
            [Lit "The number of characters in the `"; Name name;
             Lit "` must be grater than or equal to "; Val (min rule);
             Lit "."] ;;;
          ret false
        else if above len (max rule) then
          set_error "LENGTH_OVERFLOW"
            [Lit "The number of characters in the `"; Name name;
             Lit "` must be less than or equal to "; Val (max rule);
             Lit "."] ;;;
          ret false
        else ret true
    | _ =>
        set_error "TYPE_INVALID" [Lit "The value must be an array."] ;;;
        ret false
    end.

Definition isString (value : Any) (rule : Rule) (name : JsString)
  : Eff State bool :=
  put ErrNull ;;;
  if negb (truthy (required rule)) && negb (isSpecified value) then ret true
  else
    match value with
    | Data (VString s) =>
        let len := num_of_Z (Z.of_nat (List.length s)) in
        let blen := utf8_length s in
        if below len (min rule) then
          set_error "LENGTH_UNDERFLOW"
            [Lit "The number of characters in the `"; Name name;
             Lit "` must be grater than or equal to "; Val (min rule);
             Lit "."] ;;;
          ret false
        else if above len (max rule) then
          set_error "LENGTH_OVERFLOW"
            [Lit "The number of characters in the `"; Name name;
             Lit "` must be less than or equal to "; Val (max rule);
             Lit "."] ;;;
          ret false
        else if below (num_of_Z (Z.of_nat blen)) (minBytes rule) then
          set_error "LENGTH_UNDERFLOW"
            [Lit "The byte length of the `"; Name name; Lit "` (";
             Len blen; Lit " bytes) must be grater than or equal to ";
             Val (minBytes rule); Lit " bytes."] ;;;
          ret false
        else if above (num_of_Z (Z.of_nat blen)) (maxBytes rule) then
          set_error "LENGTH_OVERFLOW"
            [Lit "The byte length of the `"; Name name; Lit "` (";
             Len blen; Lit " bytes) must be less than or equal to ";
             Val (maxBytes rule); Lit " bytes."] ;;;
          ret false
        else if match pattern rule with
                | Some re => negb (test re s)
                | None => false
                end then
          set_error "PATTERN_UNMATCH"
            [Lit "The `"; Name name;
             Lit "` does not conform with the pattern."] ;;;
          ret false
        else if enum_misses (strict_equals_string s) (enum rule) then
          set_error "ENUM_UNMATCH"
            [Lit "The `"; Name name; Lit "` must be any one of ";
             Json (enum rule); Lit "."] ;;;
          ret false
        else ret true
    | _ =>
        set_error "TYPE_INVALID" [Lit "The value must be a string."] ;;;
        ret false
    end.

(** [rule.type === t] for a string literal [t]. *)
Definition type_is (rule : Rule) (t : string) : bool :=
  strict_equals_string (str t) (type rule).

(** The body of the [for] loop of [check], from the names still to
    visit; [result] is the loop's variable. *)
Fixpoint check_fields (obj : Value) (rules : Rules)
    (name_list : list JsString) (result : bool) : Eff State bool :=
  match name_list with
  | [] => ret result
  | name :: rest =>
      let v := get_prop obj name in
      let rule := match lookup name rules with
                  | Some r => r
                  | None => empty_rule
                  end in
      if negb (isSpecified v) then
        if truthy (required rule) then
          set_error "MISSING_REQUIRED"
            [Lit "The `"; Name name; Lit "` is required."] ;;;
          ret false
        else check_fields obj rules rest result
      else
        result <-
          (if type_is rule "float" then isFloat v rule name
           else if type_is rule "integer" then isInteger v rule name
           else if type_is rule "boolean" then isBoolean v rule name
           else if type_is rule "array" then isArray v rule name
           else if type_is rule "object" then isObject v rule name
           else if type_is rule "string" then isString v rule name
           else if converts (type rule) then
             set_error "TYPE_UNKNOWN"
               [Lit "The rule specified for the `"; Name name;
                Lit "` includes an unknown type: "; Val (type rule)] ;;;
             ret false
           else
             (* ['...' + rule.type] throws before [error] is assigned *)
             throw (TypeError "Cannot convert object to primitive value")) ;;
        if negb result then
          set_error_name name ;;;
          ret false
        else check_fields obj rules rest result
  end.

(** [static check(obj, rules, required)] *)
Definition check (obj : Value) (rules : Rules) (required : bool)
  : Eff State bool :=
  let rest :=
    ok <- isObject obj empty_rule (str "value") ;;
    if negb ok then
      set_error "MISSING_REQUIRED" [Lit "The first argument is missing."] ;;;
      ret false
    else check_fields obj rules (map fst rules) true in
  _ <- get ;;
  if required then
    if negb (isSpecified obj) then
      set_error "MISSING_REQUIRED" [Lit "The first argument is missing."] ;;;
      ret false
    else rest
  else
    if negb (truthy obj) then ret true
    else rest.

End ParameterChecker.

(* ================================================================== *)
(** * Notions used to state the properties of the checker               *)
(* ================================================================== *)

Module CheckerNotions.
Import Js ParameterChecker.

(** A check that accepts, from any state of [error]. *)
Definition passes (c : Eff State bool) : Prop :=
  forall s, fst (c s) = Ret true.

(** A check that refuses and leaves the object [e] in [error], from any
    state of [error]. *)
Definition fails_with (c : Eff State bool) (e : ErrorObject) : Prop :=
  forall s, c s = (Ret false, ErrObject e).

(** A check whose verdict, and whose error when it refuses, do not depend
    on the state it starts from; it does not throw. *)
Definition determined (c : Eff State bool) : Prop :=
  passes c \/ exists e, fails_with c e.

(** A check that throws [x], from any state of [error]. *)
Definition raises (c : Eff State bool) (x : Exn) : Prop :=
  forall s, fst (c s) = Throw x.

(** A check whose outcome, a verdict or an exception, and whose error when
    it refuses, do not depend on the state it starts from. *)
Definition decided (c : Eff State bool) : Prop :=
  determined c \/ exists x, raises c x.

(** A number whose value is a whole number: a zero, or a finite
    m * 2^e with e >= 0 or with 2^(-e) dividing m. *)
Definition is_whole (x : Number) : bool :=
  match x with
  | S754_zero _ => true
  | S754_finite _ m e => (0 <=? e)%Z || (Z.pos m mod 2 ^ (- e) =? 0)%Z
  | _ => false
  end.

(** A binary64 value in canonical form. *)
Definition is_binary64 (x : Number) : bool := valid_binary prec emax x.

(** The numbers 2, 2.5 and 10. *)
Definition num_2 : Number := num_of_Z 2.
Definition num_2_5 : Number := SFdiv prec emax (num_of_Z 5) (num_of_Z 2).
Definition num_10 : Number := num_of_Z 10.

(** The rule [{type: t}], [{type: t, min: lo, max: hi}] and
    [{required: true}]. *)
Definition rule_of_type (t : string) : Rule := {|
  required := VUndefined; min := VUndefined; max := VUndefined;
  minBytes := VUndefined; maxBytes := VUndefined; pattern := None;
  enum := VUndefined; type := VString (str t)
|}.

Definition rule_bounded (t : string) (lo hi : Number) (options : Value) : Rule := {|
  required := VUndefined; min := VNumber lo; max := VNumber hi;
  minBytes := VUndefined; maxBytes := VUndefined; pattern := None;
  enum := options; type := VString (str t)
|}.

Definition rule_required : Rule := {|
  required := VBool true; min := VUndefined; max := VUndefined;
  minBytes := VUndefined; maxBytes := VUndefined; pattern := None;
  enum := VUndefined; type := VUndefined
|}.

(** [Array.isArray(e) && e.length > 0] *)
Definition has_options (e : Value) : bool :=
  match e with
  | VArray (_ :: _) => true
  | _ => false
  end.

(** The six type checkers [check] dispatches to. *)
Definition Checker : Type := Any -> Rule -> JsString -> Eff State bool.

Definition checkers : list Checker :=
  [isFloat; isInteger; isBoolean; isArray; isObject; isString].

(** [rules[name]], or [{}] when there is none. *)
Definition rule_for (rules : Rules) (n : JsString) : Rule :=
  match lookup n rules with
  | Some r => r
  | None => empty_rule
  end.

(** The codes a type checker, or the dispatch on [rule.type], can store. *)
Definition checker_codes : list string :=
  ["TYPE_INVALID"; "VALUE_UNDERFLOW"; "VALUE_OVERFLOW"; "LENGTH_UNDERFLOW";
   "LENGTH_OVERFLOW"; "PATTERN_UNMATCH"; "ENUM_UNMATCH"; "TYPE_UNKNOWN"]%string.

(** The error [check] stores for a first argument it does not take. *)
Definition first_argument_missing : ErrorObject := {|
  code := "MISSING_REQUIRED";
  message := [Lit "The first argument is missing."];
  name := None
|}.

(** The dispatch on [rule.type] in the loop of [check], for a value that
    is present. *)
Definition dispatch (v : Any) (rule : Rule) (n : JsString) : Eff State bool :=
  if type_is rule "float" then isFloat v rule n
  else if type_is rule "integer" then isInteger v rule n
  else if type_is rule "boolean" then isBoolean v rule n
  else if type_is rule "array" then isArray v rule n
  else if type_is rule "object" then isObject v rule n
  else if type_is rule "string" then isString v rule n
  else if converts (type rule) then
    bind (set_error "TYPE_UNKNOWN"
            [Lit "The rule specified for the `"; Name n;
             Lit "` includes an unknown type: "; Val (type rule)])
      (fun _ => ret false)
  else throw (TypeError "Cannot convert object to primitive value").

(** The error [check] stores for a required field that is absent. *)
Definition field_missing (n : JsString) : ErrorObject := {|
  code := "MISSING_REQUIRED";
  message := [Lit "The `"; Name n; Lit "` is required."];
  name := None
|}.

(** A field the ruleset requires. *)
Definition is_required (rules : Rules) (n : JsString) : bool :=
  truthy (required (rule_for rules n)).

(** The six values of [rule.type] that [check] knows. *)
Definition known_types : list string :=
  ["float"; "integer"; "boolean"; "array"; "object"; "string"]%string.

(** A number that is neither [NaN] nor an infinity. *)
Definition is_finite (x : Number) : bool :=
  match x with
  | S754_zero _ | S754_finite _ _ _ => true
  | S754_nan | S754_infinity _ => false
  end.

End CheckerNotions.

(* ================================================================== *)
(** * Properties of the humidifier codec and of its command exchange    *)
(* ================================================================== *)

Module WoHumiSpec.
Import Js WoHumi.
Local Open Scope string_scope.
Local Open Scope Z_scope.

(** ** Bytes and bits *)

Lemma uint8_range (b : byte) : 0 <= Buffer.uint8 b < 256.
Proof.
  unfold Buffer.uint8. pose proof (Byte.to_N_bounded b) as B. lia.
Qed.

Lemma uint8_inj (a b : byte) : Buffer.uint8 a = Buffer.uint8 b -> a = b.
Proof.
  unfold Buffer.uint8. intros E. apply N2Z.inj in E.
  pose proof (Byte.of_to_N a) as Ea. rewrite E, Byte.of_to_N in Ea.
  congruence.
Qed.

(** Masking with [0b10000000] and testing for non-zero reads bit 7. *)
Lemma mask_bit7 (z : Z) : truthy_int (Z.land z 128) = Z.testbit z 7.
Proof.
  unfold truthy_int.
  assert (E : Z.land z 128 = if Z.testbit z 7 then 128 else 0).
  { apply Z.bits_inj'. intros n Hn.
    rewrite Z.land_spec.
    change 128 with (2 ^ 7).
    rewrite Z.pow2_bits_eqb by lia.
    destruct (Z.eqb_spec 7 n) as [<- | Hne].
    - rewrite andb_true_r. destruct (Z.testbit z 7) eqn:T.
      + now rewrite Z.pow2_bits_true.
      + now rewrite Z.bits_0.
    - rewrite andb_false_r. destruct (Z.testbit z 7).
      + rewrite Z.pow2_bits_false; [reflexivity | lia].
      + now rewrite Z.bits_0. }
  rewrite E. now destruct (Z.testbit z 7).
Qed.

(** Masking with [0b01111111] keeps the low seven bits. *)
Lemma mask_low7 (z : Z) : Z.land z 127 = z mod 128.
Proof. change 127 with (Z.ones 7). now rewrite Z.land_ones. Qed.

Lemma length8_inv (buf : Buffer.t) :
  List.length buf = 8%nat ->
  exists b0 b1 b2 b3 b4 b5 b6 b7, buf = [b0; b1; b2; b3; b4; b5; b6; b7].
Proof.
  intros H.
  do 8 (destruct buf as [| ? buf]; [discriminate H |]).
  destruct buf; [| discriminate H].
  repeat eexists.
Qed.

(** What [parseServiceData] does on eight bytes, in the code's own terms. *)
Lemma parseServiceData_eight (b0 b1 b2 b3 b4 b5 b6 b7 : byte) onlog tr :
  parseServiceData [b0; b1; b2; b3; b4; b5; b6; b7] onlog tr =
  (Ret (Some {|
     model := "e"; modelName := "WoHumi";
     onState := Z.testbit (Buffer.uint8 b1) 7;
     autoMode := Z.testbit (Buffer.uint8 b4) 7;
     percentage :=
       if Z.testbit (Buffer.uint8 b4) 7 then 0 else Buffer.uint8 b4 mod 128
   |}),
   (tr ++ [EvRead 1%nat; EvRead 4%nat])%list).
Proof.
  unfold parseServiceData, Buffer.readUInt8, bind, emit, ret.
  cbn -[Z.testbit Z.land Z.modulo].
  rewrite !mask_bit7, mask_low7, <- app_assoc.
  now destruct (Z.testbit (Buffer.uint8 b1) 7), (Z.testbit (Buffer.uint8 b4) 7).
Qed.

(** C2. On every 8-byte buffer [parseServiceData] returns a record whose
    [onState] is bit 7 of byte 1, whose [autoMode] is bit 7 of byte 4 and
    whose [percentage] is the low seven bits of byte 4, or 0 when
    [autoMode] is set.  With byte 1 = 0x80 and byte 4 = 0x32 the record is
    [{onState: true, autoMode: false, percentage: 50}]; with byte 4 = 0x96
    it has [autoMode = true] and [percentage = 0]. *)
Theorem parseServiceData_layout :
  (forall (buf : Buffer.t) onlog tr,
      List.length buf = 8%nat ->
      exists b1 b4,
        nth_error buf 1 = Some b1 /\ nth_error buf 4 = Some b4 /\
        fst (parseServiceData buf onlog tr) =
        Ret (Some {|
          model := "e"; modelName := "WoHumi";
          onState := Z.testbit (Buffer.uint8 b1) 7;
          autoMode := Z.testbit (Buffer.uint8 b4) 7;
          percentage :=
            if Z.testbit (Buffer.uint8 b4) 7 then 0
            else Buffer.uint8 b4 mod 128
        |})) /\
  (forall b0 b2 b3 b5 b6 b7 onlog tr,
      fst (parseServiceData [b0; x80; b2; b3; x32; b5; b6; b7] onlog tr) =
      Ret (Some {| model := "e"; modelName := "WoHumi";
                   onState := true; autoMode := false; percentage := 50 |})) /\
  (forall b0 b1 b2 b3 b5 b6 b7 onlog tr,
      exists r,
        fst (parseServiceData [b0; b1; b2; b3; x96; b5; b6; b7] onlog tr) =
        Ret (Some r) /\
        autoMode r = true /\ percentage r = 0).
Proof.
  split; [| split].
  - intros buf onlog tr H.
    destruct (length8_inv buf H) as (b0 & b1 & b2 & b3 & b4 & b5 & b6 & b7 & ->).
    exists b1, b4. rewrite parseServiceData_eight. now cbn.
  - intros. now rewrite parseServiceData_eight.
  - intros. rewrite parseServiceData_eight. eexists. cbn.
    split; [reflexivity | split; reflexivity].
Qed.

Lemma parseServiceData_layout_witness :
  List.length [x00; x80; x00; x00; x32; x00; x00; x00] = 8%nat /\
  exists b1 b4,
    nth_error [x00; x80; x00; x00; x32; x00; x00; x00] 1 = Some b1 /\
    nth_error [x00; x80; x00; x00; x32; x00; x00; x00] 4 = Some b4 /\
    fst (parseServiceData [x00; x80; x00; x00; x32; x00; x00; x00]
           OnLogUndefined []) =
    Ret (Some {|
      model := "e"; modelName := "WoHumi";
      onState := Z.testbit (Buffer.uint8 b1) 7;
      autoMode := Z.testbit (Buffer.uint8 b4) 7;
      percentage :=
        if Z.testbit (Buffer.uint8 b4) 7 then 0 else Buffer.uint8 b4 mod 128
    |}).
Proof.
  split; [reflexivity |].
  apply (proj1 parseServiceData_layout). reflexivity.
Defined.

(** What the decoder does with a quick-gear code: byte 4 = 0x65 = 101,
    auto-mode bit clear, is reported as [percentage = 101], in a record
    that has no other field to carry it. *)
Lemma quick_gear_not_apart :
  parseServiceData [x00; x80; x00; x00; x65; x00; x00; x00] OnLogUndefined [] =
  (Ret (Some {| model := "e"; modelName := "WoHumi";
                onState := true; autoMode := false; percentage := 101 |}),
   [EvRead 1; EvRead 4]) /\
  ~ (forall r,
        fst (parseServiceData [x00; x80; x00; x00; x65; x00; x00; x00]
               OnLogUndefined []) = Ret (Some r) ->
        percentage r <> Buffer.uint8 x65 mod 128).
Proof.
  split; [reflexivity |].
  intros H. eapply H; reflexivity.
Qed.

(** C3, as the code has it.  On every 8-byte buffer whose auto-mode bit is
    clear and whose byte-4 low seven bits are 101, 102 or 103, the decoder
    returns that value unchanged in the [percentage] field, next to
    [autoMode = false]. *)
Theorem quick_gear_in_percentage (buf : Buffer.t) (b4 : byte) onlog tr :
  List.length buf = 8%nat ->
  nth_error buf 4 = Some b4 ->
  Z.testbit (Buffer.uint8 b4) 7 = false ->
  In (Buffer.uint8 b4 mod 128) [101; 102; 103] ->
  exists r,
    fst (parseServiceData buf onlog tr) = Ret (Some r) /\
    autoMode r = false /\
    percentage r = Buffer.uint8 b4 mod 128 /\
    In (percentage r) [101; 102; 103].
Proof.
  intros H H4 Hauto Hgear.
  destruct (length8_inv buf H) as (c0 & c1 & c2 & c3 & c4 & c5 & c6 & c7 & ->).
  cbn in H4. injection H4 as ->.
  rewrite parseServiceData_eight. eexists. split; [reflexivity |].
  cbn -[Z.testbit Z.modulo In]. rewrite Hauto. auto.
Qed.

Lemma quick_gear_in_percentage_witness :
  List.length [x00; x80; x00; x00; x66; x00; x00; x00] = 8%nat /\
  nth_error [x00; x80; x00; x00; x66; x00; x00; x00] 4 = Some x66 /\
  Z.testbit (Buffer.uint8 x66) 7 = false /\
  In (Buffer.uint8 x66 mod 128) [101; 102; 103] /\
  exists r,
    fst (parseServiceData [x00; x80; x00; x00; x66; x00; x00; x00]
           OnLogFunction []) = Ret (Some r) /\
    autoMode r = false /\
    percentage r = Buffer.uint8 x66 mod 128 /\
    In (percentage r) [101; 102; 103].
Proof.
  assert (G : In (Buffer.uint8 x66 mod 128) [101; 102; 103])
    by (right; left; reflexivity).
  repeat (split; [first [reflexivity | exact G] |]).
  exact (quick_gear_in_percentage
           [x00; x80; x00; x00; x66; x00; x00; x00] x66 OnLogFunction []
           eq_refl eq_refl eq_refl G).
Defined.

(** The run of [parseServiceData] on a buffer whose length is not 8. *)
Lemma parseServiceData_not_eight (buf : Buffer.t) onlog :
  List.length buf <> 8%nat ->
  parseServiceData buf onlog [] =
  (Ret None,
   match onlog with
   | OnLogFunction => [EvLog (length_complaint (List.length buf))]
   | OnLogUndefined => []
   end).
Proof.
  intros H. apply Nat.eqb_neq in H.
  unfold parseServiceData. rewrite H. now destruct onlog.
Qed.

(** C4. On every buffer whose length is not 8, [parseServiceData] returns
    [null]: no record, no exception, and no byte offset of the buffer is
    read; all it does is call [onlog], when one is given. *)
Theorem parseServiceData_wrong_length (buf : Buffer.t) onlog :
  List.length buf <> 8%nat ->
  fst (parseServiceData buf onlog []) = Ret None /\
  snd (parseServiceData buf onlog []) =
    match onlog with
    | OnLogFunction => [EvLog (length_complaint (List.length buf))]
    | OnLogUndefined => []
    end /\
  forall offset, ~ In (EvRead offset) (snd (parseServiceData buf onlog [])).
Proof.
  intros H. rewrite (parseServiceData_not_eight buf onlog H). cbn [fst snd].
  split; [reflexivity | split; [reflexivity |]].
  destruct onlog; intros offset Hin.
  - exact Hin.
  - destruct Hin as [E | []]. discriminate E.
Qed.

Lemma parseServiceData_wrong_length_witness :
  List.length [x00; x80; x00] <> 8%nat /\
  fst (parseServiceData [x00; x80; x00] OnLogFunction []) = Ret None /\
  snd (parseServiceData [x00; x80; x00] OnLogFunction []) =
    [EvLog (length_complaint 3)] /\
  forall offset,
    ~ In (EvRead offset) (snd (parseServiceData [x00; x80; x00] OnLogFunction [])).
Proof.
  assert (H : List.length [x00; x80; x00] <> 8%nat) by (cbn; lia).
  split; [exact H |].
  exact (parseServiceData_wrong_length [x00; x80; x00] OnLogFunction H).
Defined.

(** On any buffer at all, every offset [parseServiceData] reads lies
    inside the buffer, and it does not throw. *)
Lemma parseServiceData_in_bounds (buf : Buffer.t) onlog :
  (forall offset,
      In (EvRead offset) (snd (parseServiceData buf onlog [])) ->
      (offset < List.length buf)%nat) /\
  (forall e, fst (parseServiceData buf onlog []) <> Throw e).
Proof.
  destruct (Nat.eq_dec (List.length buf) 8) as [H | H].
  - destruct (length8_inv buf H) as (c0 & c1 & c2 & c3 & c4 & c5 & c6 & c7 & ->).
    rewrite parseServiceData_eight. cbn. split.
    + intros offset [E | [E | []]]; injection E as <-; lia.
    + discriminate.
  - rewrite (parseServiceData_not_eight buf onlog H). cbn [fst snd]. split.
    + destruct onlog; intros offset Hin; [destruct Hin |].
      destruct Hin as [E | []]. discriminate E.
    + discriminate.
Qed.

(** ** The command exchange *)

(** The events of one [_operateBot] call, by the way [_command] settles. *)
Lemma executor_fulfilled (_command : Command) bytes (c : byte) rest :
  _command (Buffer.from bytes) = Fulfilled (c :: rest) ->
  _operateBot_executor _command bytes [] =
  (Ret tt,
   [EvRead 0;
    if Nat.eqb (List.length (c :: rest)) 3
       && ((Buffer.uint8 c =? 1) || (Buffer.uint8 c =? 5))
    then EvResolve
    else EvReject (device_error (c :: rest))]).
Proof.
  intros H. unfold _operateBot_executor. rewrite H.
  unfold Buffer.readUInt8, promise_then, promise_catch, resolve, reject.
  unfold bind, emit, ret.
  cbn [nth_error app].
  destruct (Nat.eqb (List.length (c :: rest)) 3
            && ((Buffer.uint8 c =? 1) || (Buffer.uint8 c =? 5)));
    reflexivity.
Qed.

Lemma executor_fulfilled_empty (_command : Command) bytes :
  _command (Buffer.from bytes) = Fulfilled [] ->
  _operateBot_executor _command bytes [] =
  (Ret tt, [EvRead 0; EvReject (RangeError 0 0)]).
Proof.
  intros H. unfold _operateBot_executor. now rewrite H.
Qed.

Lemma executor_rejected (_command : Command) bytes e :
  _command (Buffer.from bytes) = Rejected e ->
  _operateBot_executor _command bytes [] = (Ret tt, [EvReject e]).
Proof.
  intros H. unfold _operateBot_executor. now rewrite H.
Qed.

Lemma uint8_is (c k : byte) : (Buffer.uint8 c =? Buffer.uint8 k) = true <-> c = k.
Proof.
  rewrite Z.eqb_eq. split; [apply uint8_inj | now intros ->].
Qed.

(** C1. When the response has length 3, [_operateBot] resolves if its
    first byte is 0x01 or 0x05, and otherwise rejects with the error whose
    message ends in the hex encoding of the whole response; the response
    02 00 00 gives the text 020000. *)
Theorem operateBot_ack_codes :
  (forall (_command : Command) bytes res_buf code,
      _command (Buffer.from bytes) = Fulfilled res_buf ->
      List.length res_buf = 3%nat ->
      hd_error res_buf = Some code ->
      (code = x01 \/ code = x05 ->
       _operateBot _command bytes = Some (Fulfilled tt)) /\
      (code <> x01 -> code <> x05 ->
       _operateBot _command bytes =
       Some (Rejected
               (JsError ("The device returned an error: 0x"
                           ++ Buffer.toString_hex res_buf))))) /\
  (forall bytes,
      _operateBot (fun _ => Fulfilled [x02; x00; x00]) bytes =
      Some (Rejected (JsError "The device returned an error: 0x020000"))) /\
  Buffer.toString_hex [x02; x00; x00] = "020000".
Proof.
  split; [| split; reflexivity].
  intros _command bytes res_buf code H L Hd.
  destruct res_buf as [| c rest]; [discriminate L |].
  cbn in Hd. injection Hd as ->.
  unfold _operateBot, new_Promise.
  rewrite (executor_fulfilled _command bytes code rest H), L.
  cbn [Nat.eqb andb]. split.
  - intros [-> | ->]; reflexivity.
  - intros N1 N5.
    assert (E1 : (Buffer.uint8 code =? 1) = false).
    { apply not_true_is_false. intros E. now apply (uint8_is code x01) in E. }
    assert (E5 : (Buffer.uint8 code =? 5) = false).
    { apply not_true_is_false. intros E. now apply (uint8_is code x05) in E. }
    rewrite E1, E5. reflexivity.
Qed.

Lemma operateBot_ack_codes_witness :
  (fun _ : Buffer.t => Fulfilled [x05; x00; x00]) (Buffer.from [0x57; 0x01; 0x01])
    = Fulfilled [x05; x00; x00] /\
  List.length [x05; x00; x00] = 3%nat /\
  hd_error [x05; x00; x00] = Some x05 /\
  _operateBot (fun _ => Fulfilled [x05; x00; x00]) [0x57; 0x01; 0x01] =
    Some (Fulfilled tt).
Proof.
  repeat (split; [reflexivity |]).
  apply (proj1 operateBot_ack_codes
           (fun _ => Fulfilled [x05; x00; x00]) [0x57; 0x01; 0x01]
           [x05; x00; x00] x05 eq_refl eq_refl eq_refl).
  right. reflexivity.
Defined.

(** C5. Whatever way [_command]'s promise settles, one [_operateBot] call
    makes exactly one call of [resolve] or [reject], so its promise
    settles, once; and when [_command] rejects with an error, that one
    call is [reject] with the same error. *)
Theorem operateBot_one_outcome (_command : Command) (bytes : list Z) :
  (exists ev, settle_calls (_operateBot_trace _command bytes) = [ev]) /\
  (exists outcome, _operateBot _command bytes = Some outcome) /\
  (forall e,
      _command (Buffer.from bytes) = Rejected e ->
      settle_calls (_operateBot_trace _command bytes) = [EvReject e] /\
      _operateBot _command bytes = Some (Rejected e)).
Proof.
  unfold _operateBot, _operateBot_trace, new_Promise.
  destruct (_command (Buffer.from bytes)) as [[| c rest] | e] eqn:H.
  - rewrite (executor_fulfilled_empty _command bytes H). cbn.
    split; [eauto | split; [eauto | discriminate]].
  - rewrite (executor_fulfilled _command bytes c rest H).
    destruct (Nat.eqb (List.length (c :: rest)) 3
              && ((Buffer.uint8 c =? 1) || (Buffer.uint8 c =? 5)));
      cbn; (split; [eauto | split; [eauto | discriminate]]).
  - rewrite (executor_rejected _command bytes e H). cbn.
    split; [eauto | split; [eauto |]].
    intros e' E. injection E as <-. split; reflexivity.
Qed.

Lemma operateBot_one_outcome_witness :
  (fun _ : Buffer.t => @Rejected Buffer.t (Foreign "disconnected"))
    (Buffer.from [0x57; 0x01; 0x02]) = Rejected (Foreign "disconnected") /\
  settle_calls
    (_operateBot_trace (fun _ => Rejected (Foreign "disconnected"))
       [0x57; 0x01; 0x02]) = [EvReject (Foreign "disconnected")] /\
  _operateBot (fun _ => Rejected (Foreign "disconnected")) [0x57; 0x01; 0x02] =
    Some (Rejected (Foreign "disconnected")).
Proof.
  split; [reflexivity |].
  apply (proj2 (proj2 (operateBot_one_outcome
                         (fun _ => Rejected (Foreign "disconnected"))
                         [0x57; 0x01; 0x02]))).
  reflexivity.
Defined.

(** A response that is not empty and not three bytes long is rejected
    with the hex encoding of its bytes. *)
Lemma operateBot_wrong_length (_command : Command) bytes (c : byte) rest :
  _command (Buffer.from bytes) = Fulfilled (c :: rest) ->
  List.length (c :: rest) <> 3%nat ->
  _operateBot _command bytes = Some (Rejected (device_error (c :: rest))).
Proof.
  intros H L. apply Nat.eqb_neq in L.
  unfold _operateBot, new_Promise.
  rewrite (executor_fulfilled _command bytes c rest H), L. reflexivity.
Qed.

(** C6, at the empty response.  [_operateBot] reads byte 0 before it
    looks at the length, so on an empty response [readUInt8] throws, and
    the promise is rejected with that [RangeError] instead of the error
    that carries the hex encoding of the response. *)
Theorem operateBot_empty_response :
  _operateBot_trace (fun _ => Fulfilled []) [0x57; 0x01; 0x01] =
    [EvRead 0; EvReject (RangeError 0 0)] /\
  _operateBot (fun _ => Fulfilled []) [0x57; 0x01; 0x01] =
    Some (Rejected (RangeError 0 0)) /\
  _operateBot (fun _ => Fulfilled []) [0x57; 0x01; 0x01] <>
    Some (Rejected (device_error [])).
Proof.
  split; [reflexivity | split; [reflexivity | discriminate]].
Qed.

(** ** More on the decoder *)

(** From any trace: the run on a buffer whose length is not 8. *)
Lemma parseServiceData_other_length (buf : Buffer.t) onlog tr :
  List.length buf <> 8%nat ->
  fst (parseServiceData buf onlog tr) = Ret None.
Proof.
  intros H. apply Nat.eqb_neq in H.
  unfold parseServiceData. rewrite H. now destruct onlog.
Qed.

Lemma parseServiceData_some_length (buf : Buffer.t) onlog tr r :
  fst (parseServiceData buf onlog tr) = Ret (Some r) ->
  List.length buf = 8%nat.
Proof.
  intros H. destruct (Nat.eq_dec (List.length buf) 8) as [E | E]; [exact E |].
  rewrite (parseServiceData_other_length buf onlog tr E) in H. discriminate H.
Qed.

(** X1. On any buffer at all, [parseServiceData] does not throw, every
    offset it reads lies inside the buffer, and it returns a record exactly
    when the buffer is 8 bytes long ([null] otherwise). *)
Theorem parseServiceData_safe (buf : Buffer.t) onlog :
  (forall e, fst (parseServiceData buf onlog []) <> Throw e) /\
  (forall offset,
      In (EvRead offset) (snd (parseServiceData buf onlog [])) ->
      (offset < List.length buf)%nat) /\
  ((exists r, fst (parseServiceData buf onlog []) = Ret (Some r)) <->
   List.length buf = 8%nat) /\
  (fst (parseServiceData buf onlog []) = Ret None <->
   List.length buf <> 8%nat).
Proof.
  destruct (Nat.eq_dec (List.length buf) 8) as [H | H].
  - destruct (length8_inv buf H) as (c0 & c1 & c2 & c3 & c4 & c5 & c6 & c7 & ->).
    rewrite parseServiceData_eight. cbn [fst snd app].
    split; [discriminate | split; [| split; split]].
    + cbn. intros offset [E | [E | []]]; injection E as <-; lia.
    + reflexivity.
    + eauto.
    + discriminate.
    + intros N. now elim N.
  - rewrite (parseServiceData_not_eight buf onlog H). cbn [fst snd].
    split; [discriminate | split; [| split; split]].
    + destruct onlog; intros offset Hin; [destruct Hin |].
      destruct Hin as [E | []]. discriminate E.
    + intros [r E]. discriminate E.
    + intros E. now elim H.
    + intros _. exact H.
    + reflexivity.
Qed.

Lemma parseServiceData_safe_witness :
  In (EvRead 4)
    (snd (parseServiceData [x00; x80; x00; x00; x32; x00; x00; x00]
            OnLogUndefined [])) /\
  (4 < List.length [x00; x80; x00; x00; x32; x00; x00; x00])%nat.
Proof.
  assert (H : In (EvRead 4)
                (snd (parseServiceData [x00; x80; x00; x00; x32; x00; x00; x00]
                        OnLogUndefined [])))
    by (right; left; reflexivity).
  split; [exact H |].
  exact (proj1 (proj2 (parseServiceData_safe
                         [x00; x80; x00; x00; x32; x00; x00; x00]
                         OnLogUndefined)) 4%nat H).
Defined.

(** X2. Every record [parseServiceData] returns has a [percentage] between
    0 and 127, which is 0 whenever [autoMode] is set, and carries the model
    letter [e] and the model name [WoHumi]. *)
Theorem parseServiceData_record_range (buf : Buffer.t) onlog tr r :
  fst (parseServiceData buf onlog tr) = Ret (Some r) ->
  0 <= percentage r <= 127 /\
  (autoMode r = true -> percentage r = 0) /\
  model r = "e" /\ modelName r = "WoHumi".
Proof.
  intros H. pose proof (parseServiceData_some_length buf onlog tr r H) as L.
  destruct (length8_inv buf L) as (c0 & c1 & c2 & c3 & c4 & c5 & c6 & c7 & ->).
  rewrite parseServiceData_eight in H. cbn [fst] in H.
  pose proof (Z.mod_pos_bound (Buffer.uint8 c4) 128 eq_refl) as B.
  remember (Z.testbit (Buffer.uint8 c4) 7) as auto eqn:Ea. clear Ea.
  remember (Z.testbit (Buffer.uint8 c1) 7) as on eqn:Eo. clear Eo.
  remember (Buffer.uint8 c4 mod 128) as low eqn:El. clear El.
  injection H as <-. cbn [percentage autoMode model modelName].
  destruct auto;
    (split; [lia | split; [intros A; first [reflexivity | discriminate A] |]]);
    split; reflexivity.
Qed.

Lemma parseServiceData_record_range_witness :
  fst (parseServiceData [x00; x00; x00; x00; xff; x00; x00; x00] OnLogUndefined [])
    = Ret (Some {| model := "e"; modelName := "WoHumi"; onState := false;
                   autoMode := true; percentage := 0 |}) /\
  0 <= 0 <= 127.
Proof.
  split; [reflexivity |].
  exact (proj1 (parseServiceData_record_range
                  [x00; x00; x00; x00; xff; x00; x00; x00] OnLogUndefined []
                  {| model := "e"; modelName := "WoHumi"; onState := false;
                     autoMode := true; percentage := 0 |} eq_refl)).
Defined.

(** X3. The record depends on bytes 1 and 4 alone: two 8-byte buffers that
    agree there decode to the same record, whatever their other six bytes
    and whatever logger is passed. *)
Theorem parseServiceData_bytes_1_4 (buf buf' : Buffer.t) onlog onlog' tr tr' :
  List.length buf = 8%nat ->
  List.length buf' = 8%nat ->
  nth_error buf 1 = nth_error buf' 1 ->
  nth_error buf 4 = nth_error buf' 4 ->
  fst (parseServiceData buf onlog tr) = fst (parseServiceData buf' onlog' tr').
Proof.
  intros L L' E1 E4.
  destruct (length8_inv buf L) as (c0 & c1 & c2 & c3 & c4 & c5 & c6 & c7 & ->).
  destruct (length8_inv buf' L') as (d0 & d1 & d2 & d3 & d4 & d5 & d6 & d7 & ->).
  cbn in E1, E4. injection E1 as ->. injection E4 as ->.
  now rewrite !parseServiceData_eight.
Qed.

Lemma parseServiceData_bytes_1_4_witness :
  fst (parseServiceData [x00; x80; x00; x00; x32; x00; x00; x00] OnLogUndefined [])
  = fst (parseServiceData [xe5; x80; x11; x22; x32; x33; x44; x55]
           OnLogFunction [EvResolve]).
Proof.
  exact (parseServiceData_bytes_1_4
           [x00; x80; x00; x00; x32; x00; x00; x00]
           [xe5; x80; x11; x22; x32; x33; x44; x55]
           OnLogUndefined OnLogFunction [] [EvResolve]
           eq_refl eq_refl eq_refl eq_refl).
Defined.

(** X4. [onlog] is called exactly when a logger is given and the length is
    not 8, once, with the message that quotes the length. *)
Theorem parseServiceData_logging (buf : Buffer.t) onlog :
  filter (fun ev => match ev with EvLog _ => true | _ => false end)
    (snd (parseServiceData buf onlog [])) =
  match onlog with
  | OnLogFunction =>
      if Nat.eqb (List.length buf) 8 then []
      else [EvLog (length_complaint (List.length buf))]
  | OnLogUndefined => []
  end.
Proof.
  destruct (Nat.eqb_spec (List.length buf) 8) as [H | H].
  - destruct (length8_inv buf H) as (c0 & c1 & c2 & c3 & c4 & c5 & c6 & c7 & ->).
    rewrite parseServiceData_eight. now destruct onlog.
  - rewrite (parseServiceData_not_eight buf onlog H). now destruct onlog.
Qed.

(** ** More on the command exchange *)

(** The way the promise of [_operateBot] settles, by the way [_command]'s
    promise does. *)
Lemma operateBot_outcome (_command : Command) bytes :
  _operateBot _command bytes =
  Some match _command (Buffer.from bytes) with
       | Rejected e => Rejected e
       | Fulfilled [] => Rejected (RangeError 0 0)
       | Fulfilled (c :: rest) =>
           if Nat.eqb (List.length (c :: rest)) 3
              && ((Buffer.uint8 c =? 1) || (Buffer.uint8 c =? 5))
           then Fulfilled tt
           else Rejected (device_error (c :: rest))
       end.
Proof.
  unfold _operateBot, new_Promise.
  destruct (_command (Buffer.from bytes)) as [[| c rest] | e] eqn:H.
  - now rewrite (executor_fulfilled_empty _command bytes H).
  - rewrite (executor_fulfilled _command bytes c rest H).
    now destruct (Nat.eqb (List.length (c :: rest)) 3
                  && ((Buffer.uint8 c =? 1) || (Buffer.uint8 c =? 5))).
  - now rewrite (executor_rejected _command bytes e H).
Qed.

(** The acknowledgement test of [_operateBot], on the response itself. *)
Lemma ack_test (c : byte) (rest : Buffer.t) :
  Nat.eqb (List.length (c :: rest)) 3
  && ((Buffer.uint8 c =? 1) || (Buffer.uint8 c =? 5)) = true <->
  (exists b1 b2, rest = [b1; b2]) /\ (c = x01 \/ c = x05).
Proof.
  rewrite andb_true_iff, orb_true_iff, Nat.eqb_eq.
  rewrite (uint8_is c x01), (uint8_is c x05).
  split; intros [L A]; (split; [| exact A]).
  - destruct rest as [| b1 [| b2 [| b3 rest]]]; try discriminate L. eauto.
  - now destruct L as (b1 & b2 & ->).
Qed.

Lemma resolves_iff_ack (_command : Command) bytes :
  _operateBot _command bytes = Some (Fulfilled tt) <->
  exists c b1 b2,
    _command (Buffer.from bytes) = Fulfilled [c; b1; b2] /\
    (c = x01 \/ c = x05).
Proof.
  rewrite operateBot_outcome.
  destruct (_command (Buffer.from bytes)) as [[| c rest] | e].
  - split; [discriminate |]. intros (c & b1 & b2 & E & _). discriminate E.
  - destruct (Nat.eqb (List.length (c :: rest)) 3
              && ((Buffer.uint8 c =? 1) || (Buffer.uint8 c =? 5))) eqn:T.
    + apply ack_test in T. destruct T as [(b1 & b2 & ->) A].
      split; [| reflexivity]. intros _. exists c, b1, b2. now split.
    + split; [discriminate |]. intros (c' & b1 & b2 & E & A).
      injection E as -> ->.
      assert (T' : Nat.eqb (List.length [c'; b1; b2]) 3
                   && ((Buffer.uint8 c' =? 1) || (Buffer.uint8 c' =? 5)) = true)
        by (apply ack_test; eauto).
      rewrite T' in T. discriminate T.
  - split; [discriminate |]. intros (c & b1 & b2 & E & _). discriminate E.
Qed.

(** X5. The promise of [_operateBot] is fulfilled exactly when [_command]
    delivers a response of three bytes whose first byte is 0x01 or 0x05. *)
Theorem operateBot_resolves_iff (_command : Command) (bytes : list Z) :
  _operateBot _command bytes = Some (Fulfilled tt) <->
  exists c b1 b2,
    _command (Buffer.from bytes) = Fulfilled [c; b1; b2] /\
    (c = x01 \/ c = x05).
Proof. apply resolves_iff_ack. Qed.

(** X6. When the promise of [_operateBot] is rejected, the error is one of
    three: the error [_command] rejected with, unchanged; the [RangeError]
    of the read at offset 0, for an empty response; or the error whose
    message carries the hex encoding of a non-empty response that is not an
    acknowledgement. *)
Theorem operateBot_rejections (_command : Command) (bytes : list Z) (e : Exn) :
  _operateBot _command bytes = Some (Rejected e) ->
  _command (Buffer.from bytes) = Rejected e \/
  (_command (Buffer.from bytes) = Fulfilled [] /\ e = RangeError 0 0) \/
  (exists c rest,
      _command (Buffer.from bytes) = Fulfilled (c :: rest) /\
      e = device_error (c :: rest) /\
      ~ ((exists b1 b2, rest = [b1; b2]) /\ (c = x01 \/ c = x05))).
Proof.
  rewrite operateBot_outcome.
  destruct (_command (Buffer.from bytes)) as [[| c rest] | e'].
  - intros H. injection H as <-. right. left. now split.
  - destruct (Nat.eqb (List.length (c :: rest)) 3
              && ((Buffer.uint8 c =? 1) || (Buffer.uint8 c =? 5))) eqn:T;
      intros H; [discriminate H |].
    injection H as <-. right. right. exists c, rest.
    split; [reflexivity | split; [reflexivity |]].
    intros A. apply ack_test in A. rewrite A in T. discriminate T.
  - intros H. injection H as <-. now left.
Qed.

Lemma operateBot_rejections_witness :
  _operateBot (fun _ => Fulfilled [x01; x00]) [0x57; 0x01; 0x00] =
    Some (Rejected (device_error [x01; x00])) /\
  exists c rest,
    Fulfilled [x01; x00] = Fulfilled (c :: rest) /\
    device_error [x01; x00] = device_error (c :: rest) /\
    ~ ((exists b1 b2, rest = [b1; b2]) /\ (c = x01 \/ c = x05)).
Proof.
  split; [reflexivity |].
  destruct (operateBot_rejections (fun _ => Fulfilled [x01; x00])
              [0x57; 0x01; 0x00] (device_error [x01; x00]) eq_refl)
    as [H | [[H _] | H]]; [discriminate H | discriminate H | exact H].
Defined.

(** X8. The five commands send five different requests, 57 01 00 to
    57 01 04, and each is fulfilled exactly when the device acknowledges
    the request of that command. *)
Theorem commands_requests (_command : Command) :
  let acked request :=
    exists c b1 b2,
      _command request = Fulfilled [c; b1; b2] /\ (c = x01 \/ c = x05) in
  (press _command = Some (Fulfilled tt) <-> acked [x57; x01; x00]) /\
  (turnOn _command = Some (Fulfilled tt) <-> acked [x57; x01; x01]) /\
  (turnOff _command = Some (Fulfilled tt) <-> acked [x57; x01; x02]) /\
  (down _command = Some (Fulfilled tt) <-> acked [x57; x01; x03]) /\
  (up _command = Some (Fulfilled tt) <-> acked [x57; x01; x04]).
Proof.
  cbv zeta. unfold press, turnOn, turnOff, down, up.
  repeat split; intros H;
    first [ apply resolves_iff_ack in H; exact H
          | apply resolves_iff_ack; exact H ].
Qed.

(** ** The hex encoding of a response *)

Lemma hex_digit_inj (i j : N) :
  (i < 16)%N -> (j < 16)%N ->
  Buffer.hex_digit i = Buffer.hex_digit j -> i = j.
Proof.
  intros Hi Hj.
  assert (Ci : In i [0; 1; 2; 3; 4; 5; 6; 7; 8; 9; 10; 11; 12; 13; 14; 15]%N).
  { destruct i as [| p]; [now left |].
    do 4 (try destruct p as [p | p |]); cbn; try lia; intuition. }
  assert (Cj : In j [0; 1; 2; 3; 4; 5; 6; 7; 8; 9; 10; 11; 12; 13; 14; 15]%N).
  { destruct j as [| p]; [now left |].
    do 4 (try destruct p as [p | p |]); cbn; try lia; intuition. }
  cbn in Ci, Cj.
  repeat (destruct Ci as [<- | Ci]; [| try contradiction]);
    repeat (destruct Cj as [<- | Cj]; [| try contradiction]);
    intros E; first [reflexivity | discriminate E].
Qed.

Lemma hex_of_byte_inj (a b : byte) :
  Buffer.hex_of_byte a = Buffer.hex_of_byte b -> a = b.
Proof.
  unfold Buffer.hex_of_byte. intros E. injection E as E1 E2.
  assert (Ha : (Byte.to_N a < 256)%N)
    by (pose proof (Byte.to_N_bounded a); lia).
  assert (Hb : (Byte.to_N b < 256)%N)
    by (pose proof (Byte.to_N_bounded b); lia).
  apply hex_digit_inj in E1;
    [| apply N.Div0.div_lt_upper_bound; lia
     | apply N.Div0.div_lt_upper_bound; lia].
  apply hex_digit_inj in E2; [| apply N.mod_lt; lia | apply N.mod_lt; lia].
  assert (E : Byte.to_N a = Byte.to_N b).
  { rewrite (N.div_mod (Byte.to_N a) 16), (N.div_mod (Byte.to_N b) 16) by lia.
    now rewrite E1, E2. }
  pose proof (Byte.of_to_N a) as Ea. rewrite E, Byte.of_to_N in Ea.
  congruence.
Qed.

Lemma toString_hex_inj (a : Buffer.t) :
  forall b, Buffer.toString_hex a = Buffer.toString_hex b -> a = b.
Proof.
  induction a as [| x a IH]; intros [| y b] E; cbn in E;
    try reflexivity; try discriminate E.
  injection E as E1 E2 E3.
  f_equal; [| now apply IH].
  apply hex_of_byte_inj. unfold Buffer.hex_of_byte. now rewrite E1, E2.
Qed.

Lemma toString_hex_length (buf : Buffer.t) :
  String.length (Buffer.toString_hex buf) = (2 * List.length buf)%nat.
Proof.
  induction buf as [| b buf IH]; [reflexivity |].
  cbn [Buffer.toString_hex Buffer.hex_of_byte append String.length List.length].
  rewrite IH. lia.
Qed.

(** X7. The hex text of a response has two characters per byte and
    determines the response: two responses with the same text, or with the
    same device error, are the same bytes. *)
Theorem device_error_faithful (res_buf res_buf' : Buffer.t) :
  String.length (Buffer.toString_hex res_buf) = (2 * List.length res_buf)%nat /\
  (Buffer.toString_hex res_buf = Buffer.toString_hex res_buf' ->
   res_buf = res_buf') /\
  (device_error res_buf = device_error res_buf' -> res_buf = res_buf').
Proof.
  split; [apply toString_hex_length | split].
  - apply toString_hex_inj.
  - unfold device_error. intros E. injection E as E.
    now apply toString_hex_inj.
Qed.

Lemma device_error_faithful_witness :
  device_error [x02; x00; x00] = device_error [x02; x00; x00] /\
  [x02; x00; x00] = [x02; x00; x00].
Proof.
  split; [reflexivity |].
  exact (proj2 (proj2 (device_error_faithful [x02; x00; x00] [x02; x00; x00]))
           eq_refl).
Defined.

End WoHumiSpec.

(* ================================================================== *)
(** * Properties of the parameter checker                               *)
(* ================================================================== *)

Module ParameterCheckerSpec.
Import Js ParameterChecker CheckerNotions.
Local Open Scope string_scope.

(** ** The type tests of the source, on the values of the model *)

(** [typeof v === 'number'], [typeof v === 'boolean'] and
    [typeof v === 'string'] single out one kind of value each. *)
Lemma typeof_primitives v :
  (typeof v = T_number <-> exists x, v = VNumber x) /\
  (typeof v = T_boolean <-> exists b, v = VBool b) /\
  (typeof v = T_string <-> exists t, v = VString t).
Proof.
  destruct v; cbn; repeat split; intros H;
    try discriminate H; eauto; destruct H as [y H]; discriminate H.
Qed.

(** The test of [isObject],
    [typeof v !== 'object' || v === null || Array.isArray(v)],
    fails on the plain objects only. *)
Lemma plain_object_test v :
  (typeof v = T_object /\ v <> VNull /\ Array_isArray v = false) <->
  exists props, v = VObject props.
Proof.
  split.
  - intros (T & N & A). destruct v; try discriminate; try congruence. eauto.
  - intros [props ->]. repeat split. discriminate.
Qed.

(** ** Every checker is determined by its arguments *)

Lemma passes_ret_true : passes (ret true).
Proof. intros s. reflexivity. Qed.

Lemma fails_set_error c m :
  fails_with (bind (set_error c m) (fun _ => ret false))
    {| code := c; message := m; name := None |}.
Proof. intros s. reflexivity. Qed.

Lemma fails_after_put (c : Eff State bool) e s0 :
  fails_with c e -> fails_with (bind (put s0) (fun _ => c)) e.
Proof. intros H s. unfold bind, put. apply H. Qed.

Lemma passes_after_put (c : Eff State bool) s0 :
  passes c -> passes (bind (put s0) (fun _ => c)).
Proof. intros H s. unfold bind, put. apply H. Qed.

Lemma determined_after_put (c : Eff State bool) s0 :
  determined c -> determined (bind (put s0) (fun _ => c)).
Proof.
  intros [H | [e H]]; [left | right; exists e];
    auto using passes_after_put, fails_after_put.
Qed.

Lemma determined_after_get (c : Eff State bool) :
  determined c -> determined (bind get (fun _ => c)).
Proof.
  intros [H | [e H]]; [left | right; exists e]; intros s; apply H.
Qed.

Lemma determined_ret_true : determined (ret true).
Proof. left. apply passes_ret_true. Qed.

Lemma determined_set_error c m :
  determined (bind (set_error c m) (fun _ => ret false)).
Proof. right. eexists. apply fails_set_error. Qed.

Create HintDb checker.
#[local] Hint Resolve determined_ret_true determined_set_error
  determined_after_put determined_after_get : checker.

Ltac branches :=
  repeat match goal with
    | |- determined (if ?b then _ else _) => destruct b
    | |- determined (match ?v with _ => _ end) => destruct v
    end;
  auto with checker.

Lemma isFloat_determined v rule n : determined (isFloat v rule n).
Proof. unfold isFloat. apply determined_after_get. branches. Qed.

Lemma isBoolean_determined v rule n : determined (isBoolean v rule n).
Proof. unfold isBoolean. apply determined_after_put. branches. Qed.

Lemma isObject_determined v rule n : determined (isObject v rule n).
Proof. unfold isObject. apply determined_after_put. branches. Qed.

Lemma isArray_determined v rule n : determined (isArray v rule n).
Proof. unfold isArray. apply determined_after_put. branches. Qed.

Lemma isString_determined v rule n : determined (isString v rule n).
Proof. unfold isString. apply determined_after_put. branches. Qed.

(** Sequencing: a determined check followed by a continuation that is
    determined after acceptance and that, after a refusal, refuses in
    turn with an error computed from the one stored. *)
Lemma determined_bind (m : Eff State bool) (k : bool -> Eff State bool) :
  determined m ->
  determined (k true) ->
  (forall e, exists e', k false (ErrObject e) = (Ret false, ErrObject e')) ->
  determined (bind m k).
Proof.
  intros [P | [e F]] Ht Hf.
  - destruct Ht as [Pt | [e Ft]]; [left | right; exists e]; intros s;
      unfold bind; specialize (P s); destruct (m s) as [r s']; cbn in P;
      subst r; auto.
  - right. destruct (Hf e) as [e' He']. exists e'. intros s.
    unfold bind. now rewrite F.
Qed.

Lemma isInteger_determined v rule n : determined (isInteger v rule n).
Proof.
  unfold isInteger. apply determined_after_put.
  destruct (negb (truthy (required rule)) && negb (isSpecified v));
    [auto with checker |].
  apply determined_bind.
  - apply isFloat_determined.
  - branches.
  - intros e. now exists e.
Qed.

(** Sequencing, when the first check may also throw. *)
Lemma decided_bind (m : Eff State bool) (k : bool -> Eff State bool) :
  decided m ->
  decided (k true) ->
  (forall e, exists e', k false (ErrObject e) = (Ret false, ErrObject e')) ->
  decided (bind m k).
Proof.
  intros [[P | [e F]] | [x R]] Ht Hf.
  - destruct Ht as [[Pt | [e Ft]] | [x Rt]];
      [left; left | left; right; exists e | right; exists x]; intros s;
      unfold bind; specialize (P s); destruct (m s) as [r s']; cbn in P;
      subst r; auto.
  - left. right. destruct (Hf e) as [e' He']. exists e'. intros s.
    unfold bind. now rewrite F.
  - right. exists x. intros s. unfold bind. specialize (R s).
    destruct (m s) as [r s']. cbn in R. now subst r.
Qed.

Lemma check_fields_decided obj rules names :
  decided (check_fields obj rules names true).
Proof.
  induction names as [| n rest IH]; cbn [check_fields];
    [left; auto with checker |].
  destruct (negb (isSpecified (get_prop obj n))).
  - destruct (truthy _); [left; auto with checker | exact IH].
  - apply decided_bind.
    + repeat match goal with
        | |- decided (if ?b then _ else _) => destruct b
        end;
        try (left;
             auto using isFloat_determined, isInteger_determined,
               isBoolean_determined, isArray_determined, isObject_determined,
               isString_determined with checker; fail).
      right. eexists. intros s. reflexivity.
    + exact IH.
    + intros e. eexists. reflexivity.
Qed.

Lemma check_decided obj rules required :
  decided (check obj rules required).
Proof.
  assert (G : forall c : Eff State bool,
             decided c -> decided (bind get (fun _ => c))).
  { intros c [D | [x R]]; [left; now apply determined_after_get |].
    right. exists x. intros s. apply R. }
  unfold check. apply G.
  assert (R : decided
                (bind (isObject obj empty_rule (str "value"))
                   (fun ok =>
                      if negb ok
                      then bind (set_error "MISSING_REQUIRED"
                                   [Lit "The first argument is missing."])
                             (fun _ => ret false)
                      else check_fields obj rules (map fst rules) true))).
  { apply decided_bind.
    - left. apply isObject_determined.
    - apply check_fields_decided.
    - intros e. eexists. reflexivity. }
  destruct required.
  - destruct (negb (isSpecified obj)); [left; auto with checker | exact R].
  - destruct (negb (truthy obj)); [left; auto with checker | exact R].
Qed.

(** From [determined]: the verdict is a boolean, the same from every
    state. *)
Lemma determined_verdict (c : Eff State bool) :
  determined c -> exists b, forall s, fst (c s) = Ret b.
Proof.
  intros [P | [e F]]; [exists true; exact P | exists false].
  intros s. now rewrite F.
Qed.

(** A call that changes the shared [error] property: an object without
    the required field [a], checked from a fresh class. *)
Lemma check_overwrites_error :
  check (VObject []) [(str "a", rule_required)] false ErrUndefined =
  (Ret false,
   ErrObject {| code := "MISSING_REQUIRED";
                message := [Lit "The `"; Name (str "a"); Lit "` is required."];
                name := None |}) /\
  ~ (forall s,
        snd (check (VObject []) [(str "a", rule_required)] false s) = s).
Proof.
  split; [reflexivity |].
  intros H. specialize (H ErrUndefined). discriminate H.
Qed.

(** From [decided]: the outcome is the same from every state. *)
Lemma decided_outcome (c : Eff State bool) :
  decided c -> exists r, forall s, fst (c s) = r.
Proof.
  intros [D | [x R]].
  - destruct (determined_verdict c D) as [b Hb]. now exists (Ret b).
  - now exists (Throw x).
Qed.

(** C9, as the code has it.  The outcome of [check], its boolean result
    or the exception it raises, is a function of its arguments alone: it
    is the same whatever the [error] property held before.  The call is
    not without effect, though: a refusal stores its error object in the
    static [error] property, and this object too is a function of the
    arguments alone. *)
Theorem check_verdict_from_arguments obj rules required :
  (forall s1 s2,
      fst (check obj rules required s1) = fst (check obj rules required s2)) /\
  (forall s,
      fst (check obj rules required s) = Ret false ->
      exists e,
        forall s', check obj rules required s' = (Ret false, ErrObject e)).
Proof.
  pose proof (check_decided obj rules required) as D.
  split.
  - destruct (decided_outcome _ D) as [r Hr]. intros s1 s2.
    now rewrite (Hr s1), (Hr s2).
  - intros s Hs. destruct D as [[P | [e F]] | [x R]].
    + rewrite (P s) in Hs. discriminate Hs.
    + now exists e.
    + rewrite (R s) in Hs. discriminate Hs.
Qed.

Lemma check_verdict_from_arguments_witness :
  fst (check (VObject [(str "level", VString (str "high"))])
         [(str "level", rule_of_type "integer")] true ErrNull) = Ret false /\
  exists e,
    forall s',
      check (VObject [(str "level", VString (str "high"))])
        [(str "level", rule_of_type "integer")] true s' =
      (Ret false, ErrObject e).
Proof.
  split; [reflexivity |].
  apply (proj2 (check_verdict_from_arguments
                  (VObject [(str "level", VString (str "high"))])
                  [(str "level", rule_of_type "integer")] true)
           ErrNull).
  reflexivity.
Defined.

(** ** The object argument of [check] *)

(** On anything but a plain object the verdict is [true] exactly when the
    object is not required and the value is falsy. *)
Lemma check_non_object obj rules required s :
  (forall props, obj <> VObject props) ->
  fst (check obj rules required s) = Ret (negb required && negb (truthy obj)).
Proof.
  intros N.
  destruct obj as [| | b | x | t | l | props];
    [ | | destruct b | destruct x | destruct t | | now elim (N props)];
    destruct required; reflexivity.
Qed.

(** With a rule that requires the field [a] and names no known type, a
    plain object is always refused. *)
Lemma check_object_refused props required s :
  fst (check (VObject props) [(str "a", rule_required)] required s) = Ret false.
Proof.
  assert (E : check (VObject props) [(str "a", rule_required)] required s =
              check_fields (VObject props) [(str "a", rule_required)]
                [str "a"] true ErrNull)
    by (destruct required; reflexivity).
  rewrite E. cbn [check_fields].
  destruct (get_prop (VObject props) (str "a")) as [[] | |]; reflexivity.
Qed.

(** [check] accepts [null], [0] and the empty string when the object is
    not required, whatever the rules: here with a rule that requires a
    field. *)
Lemma check_accepts_falsy :
  fst (check VNull [(str "a", rule_required)] false ErrUndefined) = Ret true /\
  fst (check (VNumber num_zero) [(str "a", rule_required)] false ErrUndefined)
    = Ret true /\
  fst (check (VString []) [(str "a", rule_required)] false ErrUndefined)
    = Ret true /\
  ~ (forall rules,
        fst (check VNull rules false ErrUndefined) = Ret false).
Proof.
  repeat (split; [reflexivity |]).
  intros H. specialize (H []). discriminate H.
Qed.

(** C7, as the code has it.  On a value that is present and is not a
    plain object, [check] returns [false] when the object is required or
    the value is truthy, and [true] when the object is not required and
    the value is falsy ([null], [false], [0], [NaN], the empty string),
    whatever the rules.  [check] returns [true] whatever the rules
    exactly when the object is not required and the value is falsy
    ([undefined] included). *)
Theorem check_object_argument :
  (forall (obj : Value) rules required s,
      isSpecified obj = true ->
      (forall props, obj <> VObject props) ->
      fst (check obj rules required s) =
      Ret (negb required && negb (truthy obj))) /\
  (forall obj required,
      (forall rules s, fst (check obj rules required s) = Ret true) <->
      required = false /\ truthy obj = false).
Proof.
  split.
  - intros obj rules required s _ N. now apply check_non_object.
  - intros obj required. split.
    + intros H. specialize (H [(str "a", rule_required)] ErrUndefined).
      assert (N : (forall props, obj <> VObject props)
                  \/ exists props, obj = VObject props)
        by (destruct obj; eauto; left; discriminate).
      destruct N as [N | [props ->]].
      * rewrite (check_non_object _ _ _ _ N) in H.
        assert (H' : negb required && negb (truthy obj) = true) by congruence.
        apply andb_true_iff in H'. destruct H' as [Hr Ht].
        apply negb_true_iff in Hr, Ht. now split.
      * rewrite check_object_refused in H. discriminate H.
    + intros [-> Ht] rules s. unfold check, bind, get. now rewrite Ht.
Qed.

Lemma check_object_argument_witness :
  isSpecified (VNumber num_10) = true /\
  (forall props, VNumber num_10 <> VObject props) /\
  fst (check (VNumber num_10) [(str "a", rule_required)] false ErrNull) =
  Ret (negb false && negb (truthy (VNumber num_10))).
Proof.
  assert (N : forall props, VNumber num_10 <> VObject props)
    by (intros props; discriminate).
  split; [reflexivity | split; [exact N |]].
  exact (proj1 check_object_argument (VNumber num_10)
           [(str "a", rule_required)] false ErrNull eq_refl N).
Defined.

(** ** Numbers *)

Local Open Scope Z_scope.

(** *** Rounding a non-zero remainder

    The remainder is exact, and what [binary_normalize] makes of a
    non-zero mantissa at an exponent of at least -1074 is not a zero. *)

Lemma digits2_pos_size (p : positive) : digits2_pos p = Pos.size p.
Proof. induction p; cbn; congruence. Qed.

Lemma pow2_digits_le (m : positive) (n : Z) :
  0 <= n < Z.pos (digits2_pos m) -> 2 ^ n <= Z.pos m.
Proof.
  intros [H0 Hn]. rewrite digits2_pos_size in Hn.
  pose proof (Pos.size_le m) as L.
  assert (L' : 2 ^ Z.pos (Pos.size m) <= 2 * Z.pos m).
  { change (2 * Z.pos m) with (Z.pos m~0). rewrite <- Pos2Z.inj_pow. 
    apply Pos2Z.pos_le_pos. exact L. }
  assert (E : 2 ^ Z.pos (Pos.size m) = 2 * 2 ^ (Z.pos (Pos.size m) - 1)).
  { rewrite <- Z.pow_succ_r by lia. f_equal. lia. }
  assert (M : 2 ^ n <= 2 ^ (Z.pos (Pos.size m) - 1)) by (apply Z.pow_le_mono_r; lia).
  lia.
Qed.

Lemma shr_m_shr_1 mrs : 0 <= shr_m mrs -> shr_m (shr_1 mrs) = Z.div2 (shr_m mrs).
Proof.
  destruct mrs as [m r s]. destruct m as [| p | p]; cbn; [reflexivity | | lia].
  now destruct p.
Qed.

Lemma shr_m_iter (p : positive) :
  forall mrs, 0 <= shr_m mrs ->
         shr_m (iter_pos shr_1 p mrs) = Z.shiftr (shr_m mrs) (Z.pos p).
Proof.
  induction p as [p IH | p IH |]; intros mrs H; cbn [iter_pos].
  - assert (H1 : 0 <= shr_m (shr_1 mrs))
      by (rewrite shr_m_shr_1 by assumption; apply Z.div2_nonneg; assumption).
    assert (H2 : 0 <= shr_m (iter_pos shr_1 p (shr_1 mrs)))
      by (rewrite IH by assumption; apply Z.shiftr_nonneg; assumption).
    rewrite IH, IH, shr_m_shr_1 by assumption.
    rewrite Z.div2_spec, !Z.shiftr_shiftr by lia. f_equal. lia.
  - assert (H2 : 0 <= shr_m (iter_pos shr_1 p mrs))
      by (rewrite IH by assumption; apply Z.shiftr_nonneg; assumption).
    rewrite IH, IH by assumption.
    rewrite Z.shiftr_shiftr by lia. f_equal. lia.
  - rewrite shr_m_shr_1 by assumption. apply Z.div2_spec.
Qed.

Lemma shr_m_of_loc m l : shr_m (shr_record_of_loc m l) = m.
Proof. destruct l as [| []]; reflexivity. Qed.

Lemma shr_fexp_pos (m : positive) (e : Z) (l : location) :
  -1074 <= e ->
  0 < shr_m (fst (shr_fexp prec emax (Z.pos m) e l)) /\
  -1074 <= snd (shr_fexp prec emax (Z.pos m) e l).
Proof.
  intros He. unfold shr_fexp, shr. cbn [Zdigits2].
  assert (F : fexp prec emax (Z.pos (digits2_pos m) + e) =
              Z.max (Z.pos (digits2_pos m) + e - 53) (-1074)) by reflexivity.
  destruct (fexp prec emax (Z.pos (digits2_pos m) + e) - e) as [| p | p] eqn:En;
    cbn [fst snd]; rewrite ?shr_m_of_loc; try (split; lia).
  rewrite shr_m_iter by (rewrite shr_m_of_loc; lia).
  rewrite shr_m_of_loc, Z.shiftr_div_pow2 by lia. split; [| lia].
  apply Z.div_str_pos. split; [apply Z.pow_pos_nonneg; lia |].
  apply pow2_digits_le. lia.
Qed.

Lemma round_nearest_even_pos m l : 0 < m -> 0 < round_nearest_even m l.
Proof.
  intros H. destruct l as [| []]; cbn; try destruct (Z.even m); lia.
Qed.

Lemma binary_round_aux_not_zero sx (m : positive) e l :
  -1074 <= e ->
  num_strict_eq (binary_round_aux prec emax sx (Z.pos m) e l) num_zero = false.
Proof.
  intros He. unfold binary_round_aux.
  pose proof (shr_fexp_pos m e l He) as [P1 E1].
  destruct (shr_fexp prec emax (Z.pos m) e l) as [mrs' e']. cbn [fst snd] in P1, E1.
  pose proof (round_nearest_even_pos (shr_m mrs') (loc_of_shr_record mrs') P1) as P2.
  destruct (round_nearest_even (shr_m mrs') (loc_of_shr_record mrs')) as [| m2 | m2];
    try lia.
  pose proof (shr_fexp_pos m2 e' loc_Exact E1) as [P3 _].
  destruct (shr_fexp prec emax (Z.pos m2) e' loc_Exact) as [mrs'' e''].
  cbn [fst] in P3.
  destruct (shr_m mrs'') as [| m3 | m3]; try lia.
  destruct (e'' <=? emax - prec); now destruct sx.
Qed.

Lemma binary_round_not_zero sx (m : positive) e :
  -1074 <= e ->
  num_strict_eq (binary_round prec emax sx m e) num_zero = false.
Proof.
  intros He. unfold binary_round, shl_align.
  assert (F : -1074 <= fexp prec emax (Z.pos (digits2_pos m) + e))
    by (unfold fexp; change (emin prec emax) with (-1074); lia).
  destruct (fexp prec emax (Z.pos (digits2_pos m) + e) - e);
    now apply binary_round_aux_not_zero.
Qed.

(** The mantissa of [x % 1] is zero exactly for a whole [x]. *)
Lemma rem1_mantissa (m : positive) (e : Z) :
  ((Z.pos m * 2 ^ (e - Z.min e (-52)))
     mod (4503599627370496 * 2 ^ (-52 - Z.min e (-52))) =? 0) =
  (0 <=? e) || (Z.pos m mod 2 ^ (- e) =? 0).
Proof.
  change 4503599627370496 with (2 ^ 52).
  destruct (Z.leb_spec 0 e) as [H0 | H0]; cbn [orb].
  - rewrite Z.min_r by lia.
    replace (e - -52) with (e + 52) by lia. replace (-52 - -52) with 0 by lia.
    rewrite Z.pow_add_r, Z.mul_1_r, Z.mul_assoc, Z.mod_mul by lia. reflexivity.
  - destruct (Z.le_gt_cases (-52) e) as [H | H].
    + rewrite Z.min_r by lia.
      replace (e - -52) with (e + 52) by lia. replace (-52 - -52) with 0 by lia.
      rewrite Z.mul_1_r.
      replace (2 ^ 52) with (2 ^ (- e) * 2 ^ (e + 52))
        by (rewrite <- Z.pow_add_r by lia; f_equal; lia).
      rewrite Z.mul_mod_distr_r by (apply Z.pow_nonzero; lia).
      assert (P : 0 < 2 ^ (e + 52)) by (apply Z.pow_pos_nonneg; lia).
      destruct (Z.eqb_spec (Z.pos m mod 2 ^ (- e)) 0) as [E | E].
      * rewrite E. reflexivity.
      * apply Z.eqb_neq. nia.
    + rewrite Z.min_l by lia.
      replace (e - e) with 0 by lia. rewrite Z.mul_1_r.
      rewrite <- Z.pow_add_r by lia. replace (52 + (-52 - e)) with (- e) by lia.
      reflexivity.
Qed.

Lemma valid_exponent s m e :
  valid_binary prec emax (S754_finite s m e) = true -> -1074 <= e.
Proof.
  cbn. unfold bounded, canonical_mantissa. intros H.
  apply andb_true_iff in H. destruct H as [H _]. apply Z.eqb_eq in H.
  unfold fexp in H. change (emin prec emax) with (-1074) in H. lia.
Qed.

(** [x % 1 === 0] holds exactly for the binary64 values that are whole
    numbers; in particular not for [NaN] and the infinities. *)
Lemma rem1_zero_iff_whole (x : Number) :
  is_binary64 x = true ->
  num_strict_eq (num_rem x num_one) num_zero = is_whole x.
Proof.
  intros V. destruct x as [s | s | | s m e]; try reflexivity.
  apply valid_exponent in V.
  unfold num_rem, num_one, is_whole. cbv zeta.
  rewrite <- rem1_mantissa.
  set (r := (Z.pos m * 2 ^ (e - Z.min e (-52)))
              mod (4503599627370496 * 2 ^ (-52 - Z.min e (-52)))).
  assert (R : 0 <= r).
  { apply Z.mod_pos_bound.
    apply Z.mul_pos_pos; [reflexivity | apply Z.pow_pos_nonneg; lia]. }
  destruct r as [| p | p]; [now destruct s | | lia].
  cbn [Z.eqb]. destruct s; cbn [Z.opp binary_normalize];
    apply binary_round_not_zero; lia.
Qed.

Local Close Scope Z_scope.

Lemma isFloat_verdict_state v rule n s s' :
  fst (isFloat v rule n s) = fst (isFloat v rule n s').
Proof.
  destruct (determined_verdict _ (isFloat_determined v rule n)) as [b Hb].
  now rewrite (Hb s), (Hb s').
Qed.

(** Past the guard on absent values, [isFloat] accepts numbers only. *)
Lemma isFloat_true_number v rule n s :
  negb (truthy (required rule)) && negb (isSpecified v) = false ->
  fst (isFloat v rule n s) = Ret true ->
  exists x, v = VNumber x.
Proof.
  intros G H. unfold isFloat, bind, get in H. rewrite G in H.
  destruct v as [[] | |]; try discriminate H. eauto.
Qed.

(** [isInteger] on a number: the float checks, then the remainder. *)
Lemma isInteger_number x rule n s :
  isInteger (VNumber x) rule n s =
  match isFloat (VNumber x) rule (str "value") ErrNull with
  | (Ret true, s') =>
      if num_strict_eq (num_rem x num_one) num_zero then (Ret true, s')
      else (Ret false,
            ErrObject {| code := "TYPE_INVALID";
                         message := [Lit "The `"; Name n;
                                     Lit "` must be an integer."];
                         name := None |})
  | other => other
  end.
Proof.
  unfold isInteger, bind, put. cbn [isSpecified negb].
  rewrite andb_false_r.
  destruct (isFloat (VNumber x) rule (str "value") ErrNull) as [[[|] | e] s'];
    try reflexivity.
  now destruct (num_strict_eq (num_rem x num_one) num_zero).
Qed.

(** The numbers of the example: 2 and 2.5 are binary64 values, 2.5 being
    5629499534213120 * 2^-51 = 5/2, and only 2 is whole. *)
Lemma two_and_two_and_a_half :
  is_binary64 num_2 = true /\ is_binary64 num_2_5 = true /\
  num_2_5 = S754_finite false 5629499534213120 (-51) /\
  (5629499534213120 * 2 = 5 * 2 ^ 51)%Z /\
  is_whole num_2 = true /\ is_whole num_2_5 = false.
Proof. repeat split. Qed.

(** C8. On a number, [isInteger] accepts exactly when the float checks
    (min, max, enum) accept and the remainder [value % 1] is zero, that
    is, for a binary64 value, when it is a whole number; when the float
    checks accept and the remainder is not zero it refuses with code
    TYPE_INVALID.  So under any rule whose float checks accept both, 2.0 is
    accepted and 2.5 is refused with TYPE_INVALID, as under
    [{type: 'integer', min: 0, max: 10}]. *)
Theorem isInteger_zero_remainder :
  (forall x rule n s,
      fst (isInteger (VNumber x) rule n s) = Ret true <->
      fst (isFloat (VNumber x) rule (str "value") s) = Ret true /\
      num_strict_eq (num_rem x num_one) num_zero = true) /\
  (forall x rule n s,
      is_binary64 x = true ->
      (fst (isInteger (VNumber x) rule n s) = Ret true <->
       fst (isFloat (VNumber x) rule (str "value") s) = Ret true /\
       is_whole x = true)) /\
  (forall x rule n s,
      fst (isFloat (VNumber x) rule (str "value") s) = Ret true ->
      num_strict_eq (num_rem x num_one) num_zero = false ->
      exists e,
        isInteger (VNumber x) rule n s = (Ret false, ErrObject e) /\
        code e = "TYPE_INVALID") /\
  (forall rule n s,
      fst (isFloat (VNumber num_2) rule (str "value") s) = Ret true ->
      fst (isFloat (VNumber num_2_5) rule (str "value") s) = Ret true ->
      fst (isInteger (VNumber num_2) rule n s) = Ret true /\
      exists e,
        isInteger (VNumber num_2_5) rule n s = (Ret false, ErrObject e) /\
        code e = "TYPE_INVALID") /\
  (forall s,
      let rule := rule_bounded "integer" num_zero num_10 VUndefined in
      fst (isInteger (VNumber num_2) rule (str "level") s) = Ret true /\
      isInteger (VNumber num_2_5) rule (str "level") s =
      (Ret false,
       ErrObject {| code := "TYPE_INVALID";
                    message := [Lit "The `"; Name (str "level");
                                Lit "` must be an integer."];
                    name := None |})).
Proof.
  assert (A : forall x rule n s,
             fst (isInteger (VNumber x) rule n s) = Ret true <->
             fst (isFloat (VNumber x) rule (str "value") s) = Ret true /\
             num_strict_eq (num_rem x num_one) num_zero = true).
  { intros x rule n s. rewrite isInteger_number.
    rewrite (isFloat_verdict_state _ rule (str "value") s ErrNull).
    destruct (isFloat (VNumber x) rule (str "value") ErrNull) as [[[|] | e] s'];
      cbn [fst].
    - destruct (num_strict_eq (num_rem x num_one) num_zero); cbn [fst];
        intuition congruence.
    - intuition congruence.
    - intuition congruence. }
  assert (B : forall x rule n s,
             fst (isFloat (VNumber x) rule (str "value") s) = Ret true ->
             num_strict_eq (num_rem x num_one) num_zero = false ->
             exists e,
               isInteger (VNumber x) rule n s = (Ret false, ErrObject e) /\
               code e = "TYPE_INVALID").
  { intros x rule n s F R. rewrite isInteger_number.
    rewrite (isFloat_verdict_state _ rule (str "value") s ErrNull) in F.
    destruct (isFloat (VNumber x) rule (str "value") ErrNull) as [r s'].
    cbn in F. subst r. rewrite R. eexists. split; reflexivity. }
  split; [exact A | split; [| split; [exact B | split]]].
  - intros x rule n s V. rewrite <- (rem1_zero_iff_whole x V). apply A.
  - intros rule n s F2 F25. split.
    + apply A. split; [exact F2 | reflexivity].
    + apply B; [exact F25 | reflexivity].
  - intros s rule. split; reflexivity.
Qed.

Lemma isInteger_zero_remainder_witness :
  fst (isFloat (VNumber num_2_5)
         (rule_bounded "integer" num_zero num_10 VUndefined)
         (str "value") ErrUndefined) = Ret true /\
  num_strict_eq (num_rem num_2_5 num_one) num_zero = false /\
  exists e,
    isInteger (VNumber num_2_5)
      (rule_bounded "integer" num_zero num_10 VUndefined)
      (str "level") ErrUndefined = (Ret false, ErrObject e) /\
    code e = "TYPE_INVALID".
Proof.
  split; [reflexivity | split; [reflexivity |]].
  exact (proj1 (proj2 (proj2 isInteger_zero_remainder)) num_2_5
           (rule_bounded "integer" num_zero num_10 VUndefined)
           (str "level") ErrUndefined eq_refl eq_refl).
Defined.

(** ** NaN *)

Lemma NaN_not_below bound : below NaN bound = false.
Proof. now destruct bound. Qed.

Lemma NaN_not_above bound : above NaN bound = false.
Proof. destruct bound as [| | | b | | |]; try reflexivity. now destruct b. Qed.

(** [NaN] is strictly equal to nothing, so [indexOf] never finds it. *)
Lemma indexOf_NaN arr i : indexOf_from (strict_equals_number NaN) arr i = (-1)%Z.
Proof.
  revert i. induction arr as [| v rest IH]; intros i; cbn; [reflexivity |].
  destruct v; apply IH.
Qed.

Lemma enum_misses_NaN e : enum_misses (strict_equals_number NaN) e = has_options e.
Proof.
  destruct e as [| | | | | l |]; try reflexivity.
  unfold enum_misses, indexOf. rewrite indexOf_NaN.
  destruct l; reflexivity.
Qed.

(** With a non-empty [enum], [isFloat] refuses [NaN] although both bounds
    are numbers. *)
Lemma isFloat_NaN_refused_by_enum :
  isFloat (VNumber NaN)
    (rule_bounded "float" num_zero num_10 (VArray [VNumber num_2]))
    (str "ratio") ErrUndefined =
  (Ret false,
   ErrObject {| code := "ENUM_UNMATCH";
                message := [Lit "The `"; Name (str "ratio");
                            Lit "` must be any one of ";
                            Json (VArray [VNumber num_2]); Lit "."];
                name := None |}) /\
  fst (isFloat (VNumber NaN)
         (rule_bounded "float" num_zero num_10 (VArray [VNumber num_2]))
         (str "ratio") ErrUndefined) <> Ret true.
Proof. split; [reflexivity | discriminate]. Qed.

(** C10, as the code has it.  Under a rule whose [min] and [max] are
    numbers, [NaN] passes the type check and both bound comparisons; it is
    accepted, leaving [error] as it was, unless the rule has a non-empty
    [enum], which refuses it with code ENUM_UNMATCH. *)
Theorem isFloat_NaN (rule : Rule) (n : JsString) (s : State) (lo hi : Number) :
  min rule = VNumber lo ->
  max rule = VNumber hi ->
  num_lt NaN lo = false /\
  num_gt NaN hi = false /\
  isFloat (VNumber NaN) rule n s =
  if has_options (enum rule)
  then (Ret false,
        ErrObject {| code := "ENUM_UNMATCH";
                     message := [Lit "The `"; Name n;
                                 Lit "` must be any one of ";
                                 Json (enum rule); Lit "."];
                     name := None |})
  else (Ret true, s).
Proof.
  intros Hlo Hhi.
  pose proof (NaN_not_below (min rule)) as B.
  pose proof (NaN_not_above (max rule)) as A.
  split; [now rewrite Hlo in B | split; [now rewrite Hhi in A |]].
  unfold isFloat, bind, get. cbn [isSpecified negb].
  rewrite andb_false_r, B, A, enum_misses_NaN.
  now destruct (has_options (enum rule)).
Qed.

Lemma isFloat_NaN_witness :
  min (rule_bounded "float" num_zero num_10 VUndefined) = VNumber num_zero /\
  max (rule_bounded "float" num_zero num_10 VUndefined) = VNumber num_10 /\
  num_lt NaN num_zero = false /\
  num_gt NaN num_10 = false /\
  isFloat (VNumber NaN) (rule_bounded "float" num_zero num_10 VUndefined)
    (str "ratio") ErrNull = (Ret true, ErrNull).
Proof.
  split; [reflexivity | split; [reflexivity |]].
  exact (isFloat_NaN (rule_bounded "float" num_zero num_10 VUndefined)
           (str "ratio") ErrNull num_zero num_10 eq_refl eq_refl).
Defined.

(** ** Absent values *)

(** X9. Each of the six checkers accepts [undefined] under a rule that is
    not required, whatever else the rule asks for; under a required rule
    each refuses it with code TYPE_INVALID (not MISSING_REQUIRED, which
    only [check] reports). *)
Theorem checkers_on_undefined (rule : Rule) (n : JsString) (s : State) :
  if truthy (required rule)
  then Forall (fun c : Checker =>
                 exists e,
                   c VUndefined rule n s = (Ret false, ErrObject e) /\
                   code e = "TYPE_INVALID" /\ name e = None) checkers
  else Forall (fun c : Checker => fst (c VUndefined rule n s) = Ret true)
         checkers.
Proof.
  destruct (truthy (required rule)) eqn:T; repeat constructor;
    unfold isFloat, isInteger, isFloat, isBoolean, isArray, isObject, isString,
      bind, get, put, set_error, ret;
    rewrite ?T; cbn; eauto.
Qed.

(** X20. Whatever [isInteger] accepts, [isFloat] accepts under the same
    rule: the integers are among the floats, absent values included. *)
Theorem isInteger_implies_isFloat (v : Value) (rule : Rule) (n n' : JsString)
    (s s' : State) :
  fst (isInteger v rule n s) = Ret true ->
  fst (isFloat v rule n' s') = Ret true.
Proof.
  unfold isInteger, bind, put. intros H.
  destruct (negb (truthy (required rule)) && negb (isSpecified v)) eqn:G.
  - unfold isFloat, bind, get. now rewrite G.
  - destruct (determined_verdict _ (isFloat_determined v rule (str "value")))
      as [b Hb].
    pose proof (Hb ErrNull) as H0.
    destruct (isFloat v rule (str "value") ErrNull) as [r s0]. cbn in H0.
    subst r. destruct b; [| discriminate H].
    assert (D : forall m t, fst (isFloat v rule m t) = Ret true).
    { intros m t. unfold isFloat, bind, get. rewrite G.
      pose proof (Hb ErrNull) as H1. unfold isFloat, bind, get in H1.
      rewrite G in H1.
      destruct v; try discriminate H1.
      destruct (below x (min rule)); [discriminate H1 |].
      destruct (above x (max rule)); [discriminate H1 |].
      destruct (enum_misses (strict_equals_number x) (enum rule));
        [discriminate H1 | reflexivity]. }
    apply D.
Qed.

Lemma isInteger_implies_isFloat_witness :
  fst (isInteger (VNumber num_2) (rule_of_type "integer") (str "level") ErrNull)
    = Ret true /\
  fst (isFloat (VNumber num_2) (rule_of_type "integer") (str "ratio")
         ErrUndefined) = Ret true.
Proof.
  split; [reflexivity |].
  exact (isInteger_implies_isFloat (VNumber num_2) (rule_of_type "integer")
           (str "level") (str "ratio") ErrNull ErrUndefined eq_refl).
Defined.

(** ** The first argument of [check] *)

(** X21. A first argument that is present, truthy and not a plain object
    (a number, a string, [true], an array) is refused with the error of a
    missing argument: code MISSING_REQUIRED, no field name; and so is
    every present first argument that is not a plain object when the
    object is required. *)
Theorem check_non_object_error (obj : Value) (rules : Rules) (required : bool)
    (s : State) :
  isSpecified obj = true ->
  (forall props, obj <> VObject props) ->
  required = true \/ truthy obj = true ->
  check obj rules required s = (Ret false, ErrObject first_argument_missing).
Proof.
  intros S N C.
  destruct obj as [| | b | x | t | l | props];
    [discriminate S | | | | | | now elim (N props)];
    destruct required, C as [C | C]; try discriminate C;
    unfold check, bind, get; cbn [isSpecified negb]; rewrite ?C; reflexivity.
Qed.

Lemma check_non_object_error_witness :
  isSpecified (VArray []) = true /\
  (forall props, VArray [] <> VObject props) /\
  (false = true \/ truthy (VArray []) = true) /\
  check (VArray []) [(str "a", rule_required)] false ErrUndefined =
  (Ret false, ErrObject first_argument_missing).
Proof.
  assert (N : forall props, VArray [] <> VObject props)
    by (intros props; discriminate).
  split; [reflexivity | split; [exact N | split; [now right |]]].
  exact (check_non_object_error (VArray []) [(str "a", rule_required)] false
           ErrUndefined eq_refl N (or_intror eq_refl)).
Defined.

(** ** The loop of [check] *)

(** One turn of the loop. *)
Lemma check_fields_cons obj rules n rest result :
  check_fields obj rules (n :: rest) result =
  if negb (isSpecified (get_prop obj n)) then
    if is_required rules n then
      bind (set_error "MISSING_REQUIRED"
              [Lit "The `"; Name n; Lit "` is required."])
        (fun _ => ret false)
    else check_fields obj rules rest result
  else
    bind (dispatch (get_prop obj n) (rule_for rules n) n)
      (fun result =>
         if negb result then bind (set_error_name n) (fun _ => ret false)
         else check_fields obj rules rest result).
Proof. reflexivity. Qed.

Lemma check_fields_app_true obj rules ns1 ns2 :
  forall s,
    check_fields obj rules (ns1 ++ ns2) true s =
    match check_fields obj rules ns1 true s with
    | (Ret true, s1) => check_fields obj rules ns2 true s1
    | other => other
    end.
Proof.
  induction ns1 as [| n ns1 IH]; intros s; [reflexivity |].
  cbn [app]. rewrite !check_fields_cons.
  destruct (negb (isSpecified (get_prop obj n))).
  - destruct (is_required rules n); [reflexivity | apply IH].
  - unfold bind at 1 3.
    destruct (dispatch (get_prop obj n) (rule_for rules n) n s)
      as [[[|] | e] s1]; cbn [negb].
    + apply IH.
    + unfold bind. now destruct (set_error_name n s1) as [[u | e] s2].
    + reflexivity.
Qed.

(** X18. The rules are visited in the order of the names, and the first
    refusal is final: the loop over [ns1 ++ ns2] is the loop over [ns1]
    and, only when that accepts, the loop over [ns2] from the state it
    left; a refusal in [ns1] is returned as it is, with its error. *)
Theorem check_fields_in_order obj rules ns1 ns2 s :
  check_fields obj rules (ns1 ++ ns2) true s =
  match check_fields obj rules ns1 true s with
  | (Ret true, s1) => check_fields obj rules ns2 true s1
  | other => other
  end.
Proof. apply check_fields_app_true. Qed.

Lemma check_fields_agree obj obj' rules names :
  (forall n, In n names -> get_prop obj n = get_prop obj' n) ->
  forall result s,
    check_fields obj rules names result s =
    check_fields obj' rules names result s.
Proof.
  induction names as [| n rest IH]; intros A result s; [reflexivity |].
  rewrite !check_fields_cons, <- (A n (or_introl eq_refl)).
  assert (A' : forall m, In m rest -> get_prop obj m = get_prop obj' m)
    by (intros m Hm; apply A; now right).
  destruct (negb (isSpecified (get_prop obj n))).
  - destruct (is_required rules n); [reflexivity | now apply IH].
  - unfold bind at 1 3.
    destruct (dispatch (get_prop obj n) (rule_for rules n) n s)
      as [[[|] | e] s1]; cbn [negb]; try reflexivity.
    now apply IH.
Qed.

(** [check] on a plain object: [isObject] resets [error], then the loop. *)
Lemma check_plain_object props rules required s :
  check (VObject props) rules required s =
  check_fields (VObject props) rules (map fst rules) true ErrNull.
Proof. now destruct required. Qed.

(** X13. [check] looks at the properties the ruleset names and at no
    other: two objects that agree on those are given the same verdict and
    leave the same error, whatever else they hold. *)
Theorem check_ignores_other_properties props props' rules required s :
  (forall n, In n (map fst rules) ->
             get_prop (VObject props) n = get_prop (VObject props') n) ->
  check (VObject props) rules required s =
  check (VObject props') rules required s.
Proof.
  intros A. rewrite !check_plain_object. now apply check_fields_agree.
Qed.

Lemma check_ignores_other_properties_witness :
  check (VObject [(str "level", VNumber num_2)])
    [(str "level", rule_of_type "integer")] true ErrUndefined =
  check (VObject [(str "extra", VBool true); (str "level", VNumber num_2);
                  (str "more", VNull)])
    [(str "level", rule_of_type "integer")] true ErrUndefined.
Proof.
  apply check_ignores_other_properties.
  intros n [<- | []]. reflexivity.
Defined.

Lemma check_fields_absent obj rules names :
  (forall n, In n names -> get_prop obj n = VUndefined) ->
  forall s,
    check_fields obj rules names true s =
    match find (is_required rules) names with
    | Some n => (Ret false, ErrObject (field_missing n))
    | None => (Ret true, s)
    end.
Proof.
  induction names as [| n rest IH]; intros A s; [reflexivity |].
  rewrite check_fields_cons, (A n (or_introl eq_refl)). cbn [isSpecified negb find].
  destruct (is_required rules n); [reflexivity |].
  apply IH. intros m Hm. apply A. now right.
Qed.

(** X14. When none of the fields the ruleset names is present, only the
    [required] flags count: [check] accepts the object if no such field is
    required, and otherwise refuses with MISSING_REQUIRED for the first
    required one; the types, bounds and patterns of the rules, unknown
    types included, are not looked at. *)
Theorem check_absent_fields props rules required s :
  (forall n, In n (map fst rules) -> get_prop (VObject props) n = VUndefined) ->
  check (VObject props) rules required s =
  match find (is_required rules) (map fst rules) with
  | Some n => (Ret false, ErrObject (field_missing n))
  | None => (Ret true, ErrNull)
  end.
Proof.
  intros A. rewrite check_plain_object. now apply check_fields_absent.
Qed.

Lemma check_absent_fields_witness :
  check (VObject [(str "other", VBool true)])
    [(str "a", rule_of_type "no such type"); (str "b", rule_required)]
    false ErrUndefined =
  (Ret false, ErrObject (field_missing (str "b"))).
Proof.
  apply (check_absent_fields [(str "other", VBool true)]
           [(str "a", rule_of_type "no such type"); (str "b", rule_required)]
           false ErrUndefined).
  intros n [<- | [<- | []]]; reflexivity.
Defined.

(** ** What a checker leaves in [error] *)

(** Runs a checker symbolically: every test becomes a case. *)
Ltac run_checker :=
  unfold dispatch, isInteger, isFloat, isBoolean, isArray, isObject, isString,
    bind, get, put, set_error, ret, throw;
  repeat match goal with
    | |- context [if ?b then _ else _] => destruct b
    | |- context [match ?v with Data _ => _ | _ => _ end] => destruct v
    | |- context [match ?v with VUndefined => _ | _ => _ end] => destruct v
    end;
  cbn.

(** An acceptance leaves [error] as it was ([isFloat]) or [null] (the
    others). *)
Lemma dispatch_accepts_state v rule n s s1 :
  dispatch v rule n s = (Ret true, s1) -> s1 = s \/ s1 = ErrNull.
Proof.
  run_checker; intros H; try discriminate H; injection H as <-; auto.
Qed.

(** A refusal leaves an error object without a name, with one of the
    checker codes. *)
Lemma dispatch_refuses_state v rule n s s1 :
  dispatch v rule n s = (Ret false, s1) ->
  exists e, s1 = ErrObject e /\ name e = None /\ In (code e) checker_codes.
Proof.
  run_checker; intros H; try discriminate H; injection H as <-;
    eexists; (split; [reflexivity | split; [reflexivity |]]);
    cbn; tauto.
Qed.

(** The dispatch throws only while it builds the TYPE_UNKNOWN message,
    for a type that does not convert, and leaves [error] as it was. *)
Lemma dispatch_throws_state v rule n s x s1 :
  dispatch v rule n s = (Throw x, s1) ->
  converts (type rule) = false /\ s1 = s /\
  x = TypeError "Cannot convert object to primitive value".
Proof.
  unfold dispatch.
  destruct (type_is rule "float");
    [intros H; exfalso; revert H; run_checker; discriminate |].
  destruct (type_is rule "integer");
    [intros H; exfalso; revert H; run_checker; discriminate |].
  destruct (type_is rule "boolean");
    [intros H; exfalso; revert H; run_checker; discriminate |].
  destruct (type_is rule "array");
    [intros H; exfalso; revert H; run_checker; discriminate |].
  destruct (type_is rule "object");
    [intros H; exfalso; revert H; run_checker; discriminate |].
  destruct (type_is rule "string");
    [intros H; exfalso; revert H; run_checker; discriminate |].
  destruct (converts (type rule)); [discriminate |].
  intros H. injection H as <- <-. repeat split.
Qed.

Lemma check_fields_accepts_null obj rules names :
  forall s1,
    check_fields obj rules names true ErrNull = (Ret true, s1) -> s1 = ErrNull.
Proof.
  induction names as [| n rest IH]; intros s1 H.
  - now injection H as <-.
  - rewrite check_fields_cons in H.
    destruct (negb (isSpecified (get_prop obj n))).
    + destruct (is_required rules n); [discriminate H | now apply IH].
    + unfold bind at 1 in H.
      destruct (dispatch (get_prop obj n) (rule_for rules n) n ErrNull)
        as [[[|] | e] s0] eqn:D; cbn [negb] in H.
      * apply dispatch_accepts_state in D.
        assert (s0 = ErrNull) as -> by (destruct D; assumption).
        now apply IH.
      * unfold bind in H.
        destruct (set_error_name n s0) as [[u | e] s2]; discriminate H.
      * discriminate H.
Qed.

(** X16. An acceptance by [check] comes in two kinds.  A plain object that
    passes leaves [error] at [null].  A value accepted because it is falsy
    and not required is not looked at, and [error] keeps what an earlier
    call left there. *)
Theorem check_acceptance_state obj rules required s s1 :
  check obj rules required s = (Ret true, s1) ->
  ((exists props, obj = VObject props) /\ s1 = ErrNull) \/
  (required = false /\ truthy obj = false /\ s1 = s).
Proof.
  intros H. destruct obj as [| | b | x | t | l | props].
  7: { left. split; [eauto |]. rewrite check_plain_object in H.
       now apply check_fields_accepts_null in H. }
  all: right; revert H; destruct required;
    try destruct b; try destruct x; try destruct t;
    cbn; intros H; try discriminate H; now injection H as <-.
Qed.

Lemma check_acceptance_state_witness :
  check VNull [(str "a", rule_required)] false (ErrObject first_argument_missing)
    = (Ret true, ErrObject first_argument_missing) /\
  (((exists props, VNull = VObject props)
    /\ ErrObject first_argument_missing = ErrNull) \/
   (false = false /\ truthy VNull = false
    /\ ErrObject first_argument_missing = ErrObject first_argument_missing)).
Proof.
  split; [reflexivity |].
  exact (check_acceptance_state VNull [(str "a", rule_required)] false
           (ErrObject first_argument_missing)
           (ErrObject first_argument_missing) eq_refl).
Defined.

Lemma not_specified v : isSpecified v = false -> v = VUndefined.
Proof. now destruct v as [[] | |]. Qed.

Lemma check_fields_refuses obj rules names :
  forall s e,
    check_fields obj rules names true s = (Ret false, ErrObject e) ->
    (exists n, In n names /\ e = field_missing n /\
               get_prop obj n = VUndefined /\ is_required rules n = true) \/
    (exists n, In n names /\ name e = Some n /\ In (code e) checker_codes /\
               isSpecified (get_prop obj n) = true).
Proof.
  induction names as [| n rest IH]; intros s e H; [discriminate H |].
  assert (W : (exists m, In m rest /\ e = field_missing m /\
                         get_prop obj m = VUndefined /\
                         is_required rules m = true) \/
              (exists m, In m rest /\ name e = Some m /\
                         In (code e) checker_codes /\
                         isSpecified (get_prop obj m) = true) ->
              (exists m, In m (n :: rest) /\ e = field_missing m /\
                         get_prop obj m = VUndefined /\
                         is_required rules m = true) \/
              (exists m, In m (n :: rest) /\ name e = Some m /\
                         In (code e) checker_codes /\
                         isSpecified (get_prop obj m) = true)).
  { intros [(m & I & R) | (m & I & R)]; [left | right]; exists m;
      (split; [now right | exact R]). }
  rewrite check_fields_cons in H.
  destruct (isSpecified (get_prop obj n)) eqn:S; cbn [negb] in H.
  - unfold bind at 1 in H.
    destruct (dispatch (get_prop obj n) (rule_for rules n) n s)
      as [[[|] | e0] s0] eqn:D; cbn [negb] in H.
    + apply W. now apply (IH s0).
    + apply dispatch_refuses_state in D. destruct D as (e1 & -> & N1 & C1).
      cbn in H. injection H as <-. right. exists n.
      split; [now left | split; [reflexivity | split; [exact C1 | exact S]]].
    + discriminate H.
  - destruct (is_required rules n) eqn:R.
    + cbn in H. injection H as <-. left. exists n.
      split; [now left | split; [reflexivity |]].
      split; [now apply not_specified | exact R].
    + apply W. now apply (IH s).
Qed.

(** X15. The error [check] stores when it refuses is of one of three
    shapes: the missing first argument (MISSING_REQUIRED, no name); a
    required field of the ruleset that is absent (MISSING_REQUIRED, no
    name: the field is quoted in the message only); or, for a field of
    the ruleset that is present, one of the eight checker codes together
    with the name of that field. *)
Theorem check_refusal_error obj rules required s e :
  check obj rules required s = (Ret false, ErrObject e) ->
  e = first_argument_missing \/
  (exists n, In n (map fst rules) /\ e = field_missing n /\
             get_prop obj n = VUndefined /\ is_required rules n = true) \/
  (exists n, In n (map fst rules) /\ name e = Some n /\
             In (code e) checker_codes /\
             isSpecified (get_prop obj n) = true).
Proof.
  intros H. destruct obj as [| | b | x | t | l | props].
  7: { right. rewrite check_plain_object in H.
       now apply check_fields_refuses in H. }
  all: left; revert H; destruct required;
    try destruct b; try destruct x; try destruct t;
    cbn; intros H; try discriminate H; now injection H as <-.
Qed.

Lemma check_refusal_error_witness :
  check (VObject [(str "level", VNumber num_2_5)])
    [(str "level", rule_of_type "integer")] true ErrUndefined =
  (Ret false,
   ErrObject {| code := "TYPE_INVALID";
                message := [Lit "The `"; Name (str "level");
                            Lit "` must be an integer."];
                name := Some (str "level") |}) /\
  exists n,
    In n [str "level"] /\ Some (str "level") = Some n /\
    In "TYPE_INVALID" checker_codes /\
    isSpecified (get_prop (VObject [(str "level", VNumber num_2_5)]) n) = true.
Proof.
  split; [reflexivity |].
  destruct (check_refusal_error
              (VObject [(str "level", VNumber num_2_5)])
              [(str "level", rule_of_type "integer")] true ErrUndefined
              {| code := "TYPE_INVALID";
                 message := [Lit "The `"; Name (str "level");
                             Lit "` must be an integer."];
                 name := Some (str "level") |} eq_refl)
    as [H | [(n & _ & H & _) | H]];
    [discriminate H | discriminate H | exact H].
Defined.

(** ** Bounds and enumerations *)

(** No number is below or above itself. *)
Lemma num_lt_irrefl (x : Number) : num_lt x x = false.
Proof.
  unfold num_lt, SFltb. destruct x as [[|] | [|] | | [|] m e]; try reflexivity;
    cbn; now rewrite Z.compare_refl, Pos.compare_cont_refl.
Qed.

(** Every number but [NaN] is strictly equal to itself. *)
Lemma num_strict_eq_refl (x : Number) : x <> NaN -> num_strict_eq x x = true.
Proof.
  unfold num_strict_eq, SFeqb.
  destruct x as [[|] | [|] | | [|] m e]; try reflexivity;
    try (intros N; now elim N);
    intros _; cbn; now rewrite Z.compare_refl, Pos.compare_cont_refl.
Qed.

Lemma no_options_no_miss same e : has_options e = false -> enum_misses same e = false.
Proof. destruct e as [| | | | | [| v l] |]; try reflexivity. discriminate. Qed.

(** [isFloat] on a number, by its three tests. *)
Lemma isFloat_number x rule n s :
  isFloat (VNumber x) rule n s =
  if below x (min rule) then
    (Ret false,
     ErrObject {| code := "VALUE_UNDERFLOW";
                  message := [Lit "The `"; Name n;
                              Lit "` must be grater than or equal to ";
                              Val (min rule); Lit "."];
                  name := None |})
  else if above x (max rule) then
    (Ret false,
     ErrObject {| code := "VALUE_OVERFLOW";
                  message := [Lit "The `"; Name n;
                              Lit "` must be less than or equal to ";
                              Val (max rule); Lit "."];
                  name := None |})
  else if enum_misses (strict_equals_number x) (enum rule) then
    (Ret false,
     ErrObject {| code := "ENUM_UNMATCH";
                  message := [Lit "The `"; Name n; Lit "` must be any one of ";
                              Json (enum rule); Lit "."];
                  name := None |})
  else (Ret true, s).
Proof.
  unfold isFloat, bind, get. cbn [isSpecified negb]. rewrite andb_false_r.
  destruct (below x (min rule)); [reflexivity |].
  destruct (above x (max rule)); [reflexivity |].
  now destruct (enum_misses (strict_equals_number x) (enum rule)).
Qed.

(** X10. The bounds of [isFloat] are inclusive, and the lower one is
    tested first.  Under a rule with numbers [lo] and [hi] as [min] and
    [max] and no enumeration: [lo] and [hi] themselves are accepted when
    [lo] is not above [hi]; a value below [lo] is refused with
    VALUE_UNDERFLOW, even if it is also above [hi]; a value not below [lo]
    but above [hi] is refused with VALUE_OVERFLOW; any other is accepted
    and [error] is left as it was. *)
Theorem isFloat_bounds (x lo hi : Number) rule n s :
  min rule = VNumber lo ->
  max rule = VNumber hi ->
  has_options (enum rule) = false ->
  (num_gt lo hi = false ->
   isFloat (VNumber lo) rule n s = (Ret true, s) /\
   isFloat (VNumber hi) rule n s = (Ret true, s)) /\
  (num_lt x lo = true ->
   exists e, isFloat (VNumber x) rule n s = (Ret false, ErrObject e) /\
             code e = "VALUE_UNDERFLOW") /\
  (num_lt x lo = false -> num_gt x hi = true ->
   exists e, isFloat (VNumber x) rule n s = (Ret false, ErrObject e) /\
             code e = "VALUE_OVERFLOW") /\
  (num_lt x lo = false -> num_gt x hi = false ->
   isFloat (VNumber x) rule n s = (Ret true, s)).
Proof.
  intros Hlo Hhi He.
  assert (F : forall y,
             isFloat (VNumber y) rule n s =
             if num_lt y lo then
               (Ret false,
                ErrObject {| code := "VALUE_UNDERFLOW";
                             message := [Lit "The `"; Name n;
                                         Lit "` must be grater than or equal to ";
                                         Val (min rule); Lit "."];
                             name := None |})
             else if num_gt y hi then
               (Ret false,
                ErrObject {| code := "VALUE_OVERFLOW";
                             message := [Lit "The `"; Name n;
                                         Lit "` must be less than or equal to ";
                                         Val (max rule); Lit "."];
                             name := None |})
             else (Ret true, s)).
  { intros y. rewrite isFloat_number, (no_options_no_miss _ _ He).
    unfold below, above. now rewrite Hlo, Hhi. }
  split; [| split; [| split]].
  - intros O. rewrite !F, !num_lt_irrefl.
    unfold num_gt in *. rewrite O.
    change (SFltb hi lo) with (num_lt hi lo). fold (num_lt hi hi).
    unfold num_lt in *. rewrite O. fold (num_lt hi hi).
    now rewrite num_lt_irrefl.
  - intros L. rewrite F, L. eexists. split; reflexivity.
  - intros L G. rewrite F, L, G. eexists. split; reflexivity.
  - intros L G. now rewrite F, L, G.
Qed.

Lemma isFloat_bounds_witness :
  min (rule_bounded "float" num_zero num_10 VUndefined) = VNumber num_zero /\
  max (rule_bounded "float" num_zero num_10 VUndefined) = VNumber num_10 /\
  has_options (enum (rule_bounded "float" num_zero num_10 VUndefined)) = false /\
  num_gt num_zero num_10 = false /\
  isFloat (VNumber num_zero) (rule_bounded "float" num_zero num_10 VUndefined)
    (str "ratio") ErrNull = (Ret true, ErrNull) /\
  isFloat (VNumber num_10) (rule_bounded "float" num_zero num_10 VUndefined)
    (str "ratio") ErrNull = (Ret true, ErrNull).
Proof.
  do 4 (split; [reflexivity |]).
  exact (proj1 (isFloat_bounds num_2 num_zero num_10
                  (rule_bounded "float" num_zero num_10 VUndefined)
                  (str "ratio") ErrNull eq_refl eq_refl eq_refl) eq_refl).
Defined.

(** X11. The length bounds are inclusive too: an array is accepted by
    [isArray] under [min] and [max] both equal to its number of elements,
    and a string by [isString] under [min] and [max] equal to its number of
    UTF-16 units and [minBytes] and [maxBytes] equal to its UTF-8 length
    (no pattern, no enumeration). *)
Theorem length_bounds_inclusive :
  (forall l rule n s,
      min rule = VNumber (num_of_Z (Z.of_nat (List.length l))) ->
      max rule = VNumber (num_of_Z (Z.of_nat (List.length l))) ->
      isArray (VArray l) rule n s = (Ret true, ErrNull)) /\
  (forall t rule n s,
      min rule = VNumber (num_of_Z (Z.of_nat (List.length t))) ->
      max rule = VNumber (num_of_Z (Z.of_nat (List.length t))) ->
      minBytes rule = VNumber (num_of_Z (Z.of_nat (utf8_length t))) ->
      maxBytes rule = VNumber (num_of_Z (Z.of_nat (utf8_length t))) ->
      pattern rule = None ->
      has_options (enum rule) = false ->
      isString (VString t) rule n s = (Ret true, ErrNull)).
Proof.
  split.
  - intros l rule n s Hlo Hhi.
    unfold isArray, bind, put. cbn [isSpecified negb]. rewrite andb_false_r.
    rewrite Hlo, Hhi. unfold below, above, num_gt.
    fold (num_lt (num_of_Z (Z.of_nat (List.length l)))
            (num_of_Z (Z.of_nat (List.length l)))).
    now rewrite num_lt_irrefl.
  - intros t rule n s Hlo Hhi Hblo Hbhi Hp He.
    unfold isString, bind, put. cbn [isSpecified negb]. rewrite andb_false_r.
    rewrite Hlo, Hhi, Hblo, Hbhi, Hp, (no_options_no_miss _ _ He).
    unfold below, above, num_gt.
    fold (num_lt (num_of_Z (Z.of_nat (List.length t)))
            (num_of_Z (Z.of_nat (List.length t)))).
    fold (num_lt (num_of_Z (Z.of_nat (utf8_length t)))
            (num_of_Z (Z.of_nat (utf8_length t)))).
    now rewrite !num_lt_irrefl.
Qed.

Lemma length_bounds_inclusive_witness :
  isArray (VArray [VNull; VBool true])
    (rule_bounded "array" num_2 num_2 VUndefined) (str "list") ErrUndefined =
  (Ret true, ErrNull).
Proof.
  exact (proj1 length_bounds_inclusive [VNull; VBool true]
           (rule_bounded "array" num_2 num_2 VUndefined) (str "list")
           ErrUndefined eq_refl eq_refl).
Defined.

(** [indexOf] answers -1 exactly when no element passes the test. *)
Lemma indexOf_from_miss same arr :
  forall i, (0 <= i)%Z ->
       (indexOf_from same arr i = (-1)%Z <-> existsb same arr = false).
Proof.
  induction arr as [| v rest IH]; intros i Hi; cbn; [tauto |].
  destruct (same v); cbn.
  - split; [lia | discriminate].
  - apply IH. lia.
Qed.

Lemma enum_misses_spec same l :
  enum_misses same (VArray l) =
  match l with
  | [] => false
  | _ => negb (existsb same l)
  end.
Proof.
  destruct l as [| v l]; [reflexivity |].
  unfold enum_misses, indexOf. cbn [List.length Nat.ltb Nat.leb andb].
  destruct (existsb same (v :: l)) eqn:E.
  - apply Z.eqb_neq. intros H.
    apply (indexOf_from_miss same (v :: l) 0%Z) in H; [congruence | lia].
  - apply Z.eqb_eq. now apply indexOf_from_miss.
Qed.

(** X12. The enumeration of [isFloat] is a test of strict equality.  For a
    value that passes the bounds, under a rule whose [enum] is the array
    [l]: if the value is listed in [l] and is not [NaN], it is accepted; if
    [l] is not empty and no number in it is strictly equal to the value, it
    is refused with ENUM_UNMATCH; an empty [l] refuses nothing. *)
Theorem isFloat_enum (x : Number) (l : list Value) rule n s :
  enum rule = VArray l ->
  below x (min rule) = false ->
  above x (max rule) = false ->
  (In (VNumber x) l -> x <> NaN ->
   isFloat (VNumber x) rule n s = (Ret true, s)) /\
  (l <> [] ->
   (forall y, In (VNumber y) l -> num_strict_eq x y = false) ->
   exists e, isFloat (VNumber x) rule n s = (Ret false, ErrObject e) /\
             code e = "ENUM_UNMATCH") /\
  (l = [] -> isFloat (VNumber x) rule n s = (Ret true, s)).
Proof.
  intros He Hlo Hhi. rewrite isFloat_number, Hlo, Hhi, He, enum_misses_spec.
  split; [| split].
  - intros I N.
    assert (E : existsb (strict_equals_number x) l = true).
    { apply existsb_exists. exists (VNumber x). split; [exact I |].
      now apply num_strict_eq_refl. }
    destruct l; [destruct I |]. now rewrite E.
  - intros Hl A.
    assert (E : existsb (strict_equals_number x) l = false).
    { apply not_true_is_false. intros E. apply existsb_exists in E.
      destruct E as (v & I & T). destruct v; try discriminate T.
      cbn in T. rewrite (A _ I) in T. discriminate T. }
    destruct l; [now elim Hl |]. rewrite E. eexists. split; reflexivity.
  - now intros ->.
Qed.

Lemma isFloat_enum_witness :
  In (VNumber num_2) [VNumber num_10; VNumber num_2] /\
  num_2 <> NaN /\
  isFloat (VNumber num_2)
    (rule_bounded "float" num_zero num_10 (VArray [VNumber num_10; VNumber num_2]))
    (str "gear") ErrNull = (Ret true, ErrNull).
Proof.
  assert (I : In (VNumber num_2) [VNumber num_10; VNumber num_2])
    by (right; left; reflexivity).
  assert (N : num_2 <> NaN) by discriminate.
  split; [exact I | split; [exact N |]].
  exact (proj1 (isFloat_enum num_2 [VNumber num_10; VNumber num_2]
                  (rule_bounded "float" num_zero num_10
                     (VArray [VNumber num_10; VNumber num_2]))
                  (str "gear") ErrNull eq_refl eq_refl eq_refl) I N).
Defined.

(** ** Strings in an enumeration *)

Lemma str_eqb_eq (a : JsString) : forall b, str_eqb a b = true <-> a = b.
Proof.
  induction a as [| x a IH]; intros [| y b]; cbn; try (split; congruence).
  rewrite andb_true_iff, N.eqb_eq, IH. split.
  - now intros [-> ->].
  - intros E. injection E as -> ->. now split.
Qed.

(** X22. The enumeration of [isString] is a test of strict equality on
    strings.  For a string that passes the length tests, under a rule
    without pattern whose [enum] is the array [l]: a string listed in [l]
    is accepted; if [l] is not empty and lists no such string, it is
    refused with ENUM_UNMATCH. *)
Theorem isString_enum (t : JsString) (l : list Value) rule n s :
  enum rule = VArray l ->
  below (num_of_Z (Z.of_nat (List.length t))) (min rule) = false ->
  above (num_of_Z (Z.of_nat (List.length t))) (max rule) = false ->
  below (num_of_Z (Z.of_nat (utf8_length t))) (minBytes rule) = false ->
  above (num_of_Z (Z.of_nat (utf8_length t))) (maxBytes rule) = false ->
  pattern rule = None ->
  (In (VString t) l -> isString (VString t) rule n s = (Ret true, ErrNull)) /\
  (l <> [] ->
   ~ In (VString t) l ->
   exists e, isString (VString t) rule n s = (Ret false, ErrObject e) /\
             code e = "ENUM_UNMATCH").
Proof.
  intros He H1 H2 H3 H4 Hp.
  unfold isString, bind, put. cbn [isSpecified negb]. rewrite andb_false_r.
  rewrite H1, H2, H3, H4, Hp, He, enum_misses_spec. split.
  - intros I.
    assert (E : existsb (strict_equals_string t) l = true).
    { apply existsb_exists. exists (VString t). split; [exact I |].
      now apply str_eqb_eq. }
    destruct l; [destruct I |]. now rewrite E.
  - intros Hl A.
    assert (E : existsb (strict_equals_string t) l = false).
    { apply not_true_is_false. intros E. apply existsb_exists in E.
      destruct E as (v & I & T). destruct v; try discriminate T.
      cbn in T. apply str_eqb_eq in T. subst. now apply A. }
    destruct l; [now elim Hl |]. rewrite E. eexists. split; reflexivity.
Qed.

Lemma isString_enum_witness :
  In (VString (str "on")) [VString (str "off"); VString (str "on")] /\
  isString (VString (str "on"))
    {| required := VBool true; min := VUndefined; max := VUndefined;
       minBytes := VUndefined; maxBytes := VUndefined; pattern := None;
       enum := VArray [VString (str "off"); VString (str "on")];
       type := VString (str "string") |}
    (str "state") ErrUndefined = (Ret true, ErrNull).
Proof.
  assert (I : In (VString (str "on")) [VString (str "off"); VString (str "on")])
    by (right; left; reflexivity).
  split; [exact I |].
  exact (proj1 (isString_enum (str "on")
                  [VString (str "off"); VString (str "on")]
                  {| required := VBool true; min := VUndefined;
                     max := VUndefined; minBytes := VUndefined;
                     maxBytes := VUndefined; pattern := None;
                     enum := VArray [VString (str "off"); VString (str "on")];
                     type := VString (str "string") |}
                  (str "state") ErrUndefined
                  eq_refl eq_refl eq_refl eq_refl eq_refl eq_refl) I).
Defined.

(** ** Rules without a known type *)

(** X19. For a field that is present and whose rule names none of the
    six known types, [check] builds the TYPE_UNKNOWN message from
    [rule.type].  When that value converts to a string (as [undefined],
    every primitive, and every object without an own [toString] do), the
    field is refused with TYPE_UNKNOWN under its own name; so a rule
    without [type], such as [{required: true}], refuses every value that
    is given for its field.  When it does not convert, [check] throws a
    [TypeError] and stores no error.  (Here the rule is the first of the
    ruleset.) *)
Theorem check_unknown_type props n r rest required s :
  isSpecified (get_prop (VObject props) n) = true ->
  (forall t, In t known_types -> type_is r t = false) ->
  check (VObject props) ((n, r) :: rest) required s =
  if converts (type r)
  then (Ret false,
        ErrObject {| code := "TYPE_UNKNOWN";
                     message := [Lit "The rule specified for the `"; Name n;
                                 Lit "` includes an unknown type: ";
                                 Val (type r)];
                     name := Some n |})
  else (Throw (TypeError "Cannot convert object to primitive value"), ErrNull).
Proof.
  intros S T. rewrite check_plain_object. cbn [map fst].
  rewrite check_fields_cons, S. cbn [negb].
  assert (R : rule_for ((n, r) :: rest) n = r).
  { unfold rule_for. cbn [lookup].
    now rewrite (proj2 (str_eqb_eq n n) eq_refl). }
  rewrite R. unfold dispatch.
  rewrite !T by (cbn; tauto). now destruct (converts (type r)).
Qed.

Lemma check_unknown_type_witness :
  check (VObject [(str "a", VNumber num_2)])
    [(str "a", rule_required); (str "b", rule_of_type "integer")]
    false ErrUndefined =
  (Ret false,
   ErrObject {| code := "TYPE_UNKNOWN";
                message := [Lit "The rule specified for the `"; Name (str "a");
                            Lit "` includes an unknown type: "; Val VUndefined];
                name := Some (str "a") |}).
Proof.
  apply (check_unknown_type [(str "a", VNumber num_2)] (str "a") rule_required
           [(str "b", rule_of_type "integer")] false ErrUndefined eq_refl).
  intros t [<- | [<- | [<- | [<- | [<- | [<- | []]]]]]]; reflexivity.
Defined.

(** ** Numbers that are not finite *)

(** X17. [isInteger] accepts no [NaN] and no infinity, whatever the rule:
    what it accepts is a zero or a finite number.  When the float checks
    let such a value pass, as they do for [NaN] under any bounds, the
    refusal carries the code TYPE_INVALID. *)
Theorem isInteger_finite (x : Number) rule n s :
  (fst (isInteger (VNumber x) rule n s) = Ret true -> is_finite x = true) /\
  (is_finite x = false ->
   fst (isFloat (VNumber x) rule (str "value") s) = Ret true ->
   exists e, isInteger (VNumber x) rule n s = (Ret false, ErrObject e) /\
             code e = "TYPE_INVALID").
Proof.
  rewrite isInteger_number.
  rewrite (isFloat_verdict_state _ rule (str "value") s ErrNull).
  destruct (isFloat (VNumber x) rule (str "value") ErrNull) as [[[|] | e] s'];
    cbn [fst]; (split; [| intros F A; try discriminate A]).
  - destruct x as [sg | sg | | sg m e]; try reflexivity; cbn; discriminate.
  - destruct x as [sg | sg | | sg m e]; try discriminate F;
      cbn; eexists; split; reflexivity.
  - discriminate.
  - discriminate.
Qed.

Lemma isInteger_finite_witness :
  is_finite (S754_infinity false) = false /\
  fst (isFloat (VNumber (S754_infinity false)) (rule_of_type "integer")
         (str "value") ErrNull) = Ret true /\
  exists e,
    isInteger (VNumber (S754_infinity false)) (rule_of_type "integer")
      (str "level") ErrNull = (Ret false, ErrObject e) /\
    code e = "TYPE_INVALID".
Proof.
  split; [reflexivity | split; [reflexivity |]].
  exact (proj2 (isInteger_finite (S754_infinity false) (rule_of_type "integer")
                  (str "level") ErrNull) eq_refl eq_refl).
Defined.

(** ** Inherited properties and types that do not convert *)

(** [obj[name]] follows the prototype chain: the empty object has a
    [toString], a function, which a string rule refuses; an own property
    [toString: undefined] shadows it and is absent for [check]; [__proto__]
    reads [Object.prototype], which is an object. *)
Lemma inherited_properties_are_checked :
  check (VObject []) [(str "toString", rule_of_type "string")] false
    ErrUndefined =
  (Ret false,
   ErrObject {| code := "TYPE_INVALID";
                message := [Lit "The value must be a string."];
                name := Some (str "toString") |}) /\
  check (VObject [(str "toString", VUndefined)])
    [(str "toString", rule_of_type "string")] false ErrUndefined =
  (Ret true, ErrNull) /\
  check (VObject []) [(str "__proto__", rule_of_type "object")] false
    ErrUndefined = (Ret true, ErrNull) /\
  check (VObject []) [(str "length", rule_of_type "string")] false
    ErrUndefined = (Ret true, ErrNull).
Proof. repeat split. Qed.

(** A rule whose [type] is an object with an own, hence not callable,
    [toString] makes [check] throw while it builds the TYPE_UNKNOWN
    message. *)
Lemma unconvertible_type_throws :
  check (VObject [(str "a", VNumber num_2)])
    [(str "a",
      {| required := VUndefined; min := VUndefined; max := VUndefined;
         minBytes := VUndefined; maxBytes := VUndefined; pattern := None;
         enum := VUndefined;
         type := VObject [(str "toString", VNumber num_2)] |})]
    false ErrUndefined =
  (Throw (TypeError "Cannot convert object to primitive value"), ErrNull).
Proof. reflexivity. Qed.

(** [check] throws only there: for a present field of the ruleset whose
    rule names no known type and whose [type] does not convert. *)
Lemma check_fields_throws obj rules names :
  forall s x s1,
    check_fields obj rules names true s = (Throw x, s1) ->
    exists n,
      In n names /\ isSpecified (get_prop obj n) = true /\
      converts (type (rule_for rules n)) = false /\
      x = TypeError "Cannot convert object to primitive value".
Proof.
  induction names as [| n rest IH]; intros s x s1 H; [discriminate H |].
  assert (W : (exists m, In m rest /\ isSpecified (get_prop obj m) = true /\
                         converts (type (rule_for rules m)) = false /\
                         x = TypeError "Cannot convert object to primitive value")
              -> exists m, In m (n :: rest) /\
                           isSpecified (get_prop obj m) = true /\
                           converts (type (rule_for rules m)) = false /\
                           x = TypeError "Cannot convert object to primitive value").
  { intros (m & I & R). exists m. split; [now right | exact R]. }
  rewrite check_fields_cons in H.
  destruct (isSpecified (get_prop obj n)) eqn:S; cbn [negb] in H.
  - unfold bind at 1 in H.
    destruct (dispatch (get_prop obj n) (rule_for rules n) n s)
      as [[[|] | e0] s0] eqn:D; cbn [negb] in H.
    + apply W. now apply (IH s0 x s1).
    + apply dispatch_refuses_state in D. destruct D as (e1 & -> & _).
      discriminate H.
    + injection H as <- <-. apply dispatch_throws_state in D.
      destruct D as (C & _ & ->). exists n.
      split; [now left | split; [exact S | split; [exact C | reflexivity]]].
  - destruct (is_required rules n); [discriminate H |].
    apply W. now apply (IH s x s1).
Qed.

End ParameterCheckerSpec.
